(** * ModelReportVisualizer: a shallow embedding of
      torch/ao/quantization/fx/_model_report/model_report_visualizer.py

    The Python class holds an ordered dictionary
    [module_fqn -> feature_name -> value] and renders it as two tables.
    Dictionaries are association lists in insertion order (iteration order
    decides row indices and the channel count), Python sets are [gset string],
    exceptions are an explicit error type. *)

From Stdlib Require Import ZArith QArith.QArith_base.
From stdpp Require Import base option list gmap strings sorting.

Set Warnings "-register-all,-clear-no-such-hyp".

Local Open Scope string_scope.
Local Open Scope list_scope.
Local Open Scope nat_scope.

(** ** Exceptions and the error monad *)

Inductive exn :=
  KeyError | TypeError | IndexError | ValueError | NotImplementedError.

Inductive result (A : Type) :=
| Ok (a : A)
| Raise (e : exn).
Arguments Ok {A} a.
Arguments Raise {A} e.

Global Instance exn_eq_dec : EqDecision exn.
Proof. solve_decision. Defined.

Global Instance result_ret : MRet result := fun _ a => Ok a.
Global Instance result_bind : MBind result := fun _ _ f m =>
  match m with
  | Ok a => f a
  | Raise e => Raise e
  end.

Global Instance result_fmap : FMap result := fun _ _ f m =>
  match m with
  | Ok a => Ok (f a)
  | Raise e => Raise e
  end.

Definition is_ok {A} (m : result A) : bool :=
  match m with Ok _ => true | Raise _ => false end.

(** [for x in xs: s = body s x], stopping at the first exception. *)
Fixpoint for_ {A S : Type} (xs : list A) (body : S → A → result S) (s : S)
  : result S :=
  match xs with
  | [] => Ok s
  | x :: xs' => s' ← body s x; for_ xs' body s'
  end.

(** ** Python dictionaries (insertion ordered) *)

Abbreviation dict V := (list (string * V)).

(** [list(d)], the order of [for k in d]. *)
Definition keys {V} (d : dict V) : list string := d.*1.

(** [d[k]] as an expression. *)
Fixpoint getitem {V} (d : dict V) (k : string) : result V :=
  match d with
  | [] => Raise KeyError
  | (k', v) :: d' => if decide (k' = k) then Ok v else getitem d' k
  end.

(** [k in d]. *)
Definition dict_contains {V} (d : dict V) (k : string) : bool :=
  bool_decide (k ∈ keys d).

(** [d[k] = v]: an existing key keeps its position, a new one goes last. *)
Fixpoint setitem {V} (d : dict V) (k : string) (v : V) : dict V :=
  match d with
  | [] => [(k, v)]
  | (k', v') :: d' =>
      if decide (k' = k) then (k, v) :: d' else (k', v') :: setitem d' k v
  end.

(** The keys of a Python dictionary are pairwise distinct. *)
Definition wf_dict {V} (d : dict V) : Prop := NoDup (keys d).

(** ** Python strings *)

(** [needle in hay] on strings: substring containment. *)
Fixpoint str_contains (needle hay : string) : bool :=
  String.prefix needle hay ||
  match hay with
  | EmptyString => false
  | String _ hay' => str_contains needle hay'
  end.

(** [sorted(list(s))] for a set of strings. *)
Definition sorted (s : gset string) : list string :=
  merge_sort String.le (elements s).

(** ** Feature values

    The report maps feature names to [Any].  The values the visualizer can
    tell apart are: plain Python scalars ([None], [bool], [int], [float]),
    strings, lists, and [torch.Tensor] objects of any dimension.  A float is
    carried around, never computed with; it is represented by a rational.
    Values of other kinds (a dictionary, a set, an iterator, an instance of
    a subclass of [torch.Tensor]) are outside this universe: nothing below
    speaks about a report that holds one. *)

Inductive scalar :=
| SBool (b : bool)
| SInt (z : Z)
| SFloat (q : Q).

Inductive Tensor :=
| Tensor0 (x : scalar)            (* 0-dimensional *)
| TensorN (rows : list Tensor).   (* indexable along dimension 0 *)

Inductive PyVal :=
| PyNone
| PyScalar (x : scalar)
| PyStr (s : string)
| PyList (xs : list PyVal)
| PyTensor (t : Tensor).

Definition PyInt (n : nat) : PyVal := PyScalar (SInt (Z.of_nat n)).
Definition PyFloat (q : Q) : PyVal := PyScalar (SFloat q).

(** [iter(v)] succeeds (does not raise [TypeError]). *)
Definition py_iterable (v : PyVal) : bool :=
  match v with
  | PyStr _ | PyList _ | PyTensor (TensorN _) => true
  | PyNone | PyScalar _ | PyTensor (Tensor0 _) => false
  end.

(** [len(v)]. *)
Definition py_len (v : PyVal) : result nat :=
  match v with
  | PyStr s => Ok (String.length s)
  | PyList xs => Ok (length xs)
  | PyTensor (TensorN rows) => Ok (length rows)
  | PyNone | PyScalar _ | PyTensor (Tensor0 _) => Raise TypeError
  end.

Definition nth_or_IndexError {A} (xs : list A) (i : nat) : result A :=
  match xs !! i with
  | Some x => Ok x
  | None => Raise IndexError
  end.

(** [v[i]] for a non-negative index: a scalar is not subscriptable, a
    0-dimensional tensor has no valid index, a sequence answers within its
    length. *)
Definition py_index (v : PyVal) (i : nat) : result PyVal :=
  match v with
  | PyNone | PyScalar _ => Raise TypeError
  | PyStr s =>
      match String.get i s with
      | Some c => Ok (PyStr (String c EmptyString))
      | None => Raise IndexError
      end
  | PyList xs => nth_or_IndexError xs i
  | PyTensor (Tensor0 _) => Raise IndexError
  | PyTensor (TensorN rows) => PyTensor <$> nth_or_IndexError rows i
  end.

Fixpoint tensor_elements (t : Tensor) : list scalar :=
  match t with
  | Tensor0 x => [x]
  | TensorN rows => flat_map tensor_elements rows
  end.

(** [t.item()]: the element of a tensor that has exactly one, an error
    otherwise (torch words it "only one element tensors can be converted to
    Python scalars"; it is [ValueError] here). *)
Definition tensor_item (t : Tensor) : result scalar :=
  match tensor_elements t with
  | [x] => Ok x
  | _ => Raise ValueError
  end.

(** [if type(v) is torch.Tensor: v = v.item()]. *)
Definition extract_val (v : PyVal) : result PyVal :=
  match v with
  | PyTensor t => PyScalar <$> tensor_item t
  | _ => Ok v
  end.

(** ** The class *)

Abbreviation FeatureMap := (dict PyVal).
Abbreviation Report := (dict FeatureMap).

Record ModelReportVisualizer := {
  generated_reports : Report
}.

Definition TABLE_TENSOR_KEY : string := "tensor_level_info".
Definition TABLE_CHANNEL_KEY : string := "channel_level_info".

(** Lines 69-79: [set(self.generated_reports.keys())]. *)
Definition get_all_unique_module_fqns (self : ModelReportVisualizer)
  : gset string :=
  list_to_set (keys (generated_reports self)).

(** Lines 81-111.  [type(v) == torch.Tensor] holds of the [PyTensor]
    values. *)
Definition get_all_unique_feature_names (self : ModelReportVisualizer)
    (plottable : bool) : result (gset string) :=
  for_ (keys (generated_reports self)) (fun unique_feature_names module_fqn =>
    feature_dict ← getitem (generated_reports self) module_fqn;
    for_ (keys feature_dict) (fun unique_feature_names feature_name =>
      if plottable then
        v ← getitem feature_dict feature_name;
        match v with
        | PyTensor _ => Ok ({[feature_name]} ∪ unique_feature_names)
        | _ => Ok unique_feature_names
        end
      else Ok ({[feature_name]} ∪ unique_feature_names))
    unique_feature_names) ∅.

(** Lines 113-145.  [filtered_dict] is local to the call; its updates in
    place are threaded through the two loops. *)
Definition _get_filtered_data (self : ModelReportVisualizer)
    (feature_filter module_fqn_filter : string) : result Report :=
  for_ (keys (generated_reports self)) (fun filtered_dict module_fqn =>
    if bool_decide (module_fqn_filter = "")
       || str_contains module_fqn_filter module_fqn then
      let filtered_dict := setitem filtered_dict module_fqn [] in
      module_reports ← getitem (generated_reports self) module_fqn;
      for_ (keys module_reports) (fun filtered_dict feature_name =>
        if bool_decide (feature_filter = "")
           || str_contains feature_filter feature_name then
          entry ← getitem filtered_dict module_fqn;
          v ← getitem module_reports feature_name;
          Ok (setitem filtered_dict module_fqn (setitem entry feature_name v))
        else Ok filtered_dict)
      filtered_dict
    else Ok filtered_dict) [].

(** State of the scan that splits features into per-tensor and per-channel
    ones (the three locals [tensor_features], [channel_features] and
    [num_channels]). *)
Record scan := {
  tensor_features : gset string;
  channel_features : gset string;
  num_channels : nat
}.

(** Lines 193-214.  [iter(feature_data)] raising [TypeError] selects the
    per-tensor branch. *)
Definition scan_features (filtered_data : Report) : result scan :=
  for_ (keys filtered_data) (fun st module_fqn =>
    features ← getitem filtered_data module_fqn;
    for_ (keys features) (fun st feature_name =>
      entry ← getitem filtered_data module_fqn;
      feature_data ← getitem entry feature_name;
      if py_iterable feature_data then
        n ← py_len feature_data;
        Ok {| tensor_features := tensor_features st;
              channel_features := {[feature_name]} ∪ channel_features st;
              num_channels := n |}
      else
        Ok {| tensor_features := {[feature_name]} ∪ tensor_features st;
              channel_features := channel_features st;
              num_channels := num_channels st |})
    st)
  {| tensor_features := ∅; channel_features := ∅; num_channels := 0 |}.

(** [enumerate(xs)]. *)
Definition enumerate {A} (xs : list A) : list (nat * A) :=
  zip (seq 0 (length xs)) xs.

Abbreviation Row := (list PyVal).
Abbreviation Table := (list Row).

Definition NOT_APPLICABLE : PyVal := PyStr "Not Applicable".

(** Lines 230-246: one row of the tensor table. *)
Definition tensor_table_row (filtered_data : Report) (index : nat)
    (module_fqn : string) (tensor_features_list : list string) : result Row :=
  for_ tensor_features_list (fun row feature =>
    entry ← getitem filtered_data module_fqn;
    feature_val ←
      (if dict_contains entry feature then
         entry ← getitem filtered_data module_fqn;
         getitem entry feature
       else Ok NOT_APPLICABLE);
    feature_val ← extract_val feature_val;
    Ok (row ++ [feature_val]))
  [PyInt (index + 1); PyStr module_fqn].

(** Lines 220-249. *)
Definition build_tensor_table (filtered_data : Report)
    (tensor_features_list : list string) : result Table :=
  let tensor_headers :=
    [PyStr "idx"; PyStr "layer_fqn"] ++ (PyStr <$> tensor_features_list) in
  for_ (enumerate (keys filtered_data)) (fun tensor_table '(index, module_fqn) =>
    row ← tensor_table_row filtered_data index module_fqn tensor_features_list;
    Ok (tensor_table ++ [row]))
  [tensor_headers].

(** Lines 266-280: one row of the channel table. *)
Definition new_channel_row (filtered_data : Report)
    (channel_table_entry_counter : nat) (module_fqn : string) (channel : nat)
    (channel_features_list : list string) : result Row :=
  for_ channel_features_list (fun row feature =>
    entry ← getitem filtered_data module_fqn;
    feature_val ←
      (if dict_contains entry feature then
         entry ← getitem filtered_data module_fqn;
         feature_data ← getitem entry feature;
         py_index feature_data channel
       else Ok NOT_APPLICABLE);
    feature_val ← extract_val feature_val;
    Ok (row ++ [feature_val]))
  [PyInt channel_table_entry_counter; PyStr module_fqn; PyInt channel].

(** Lines 251-284.  The state of the loops is the table and
    [channel_table_entry_counter]. *)
Definition build_channel_table (filtered_data : Report)
    (channel_features_list : list string) (num_channels : nat)
  : result (Table * nat) :=
  let channel_headers :=
    [PyStr "idx"; PyStr "layer_fqn"; PyStr "channel"]
      ++ (PyStr <$> channel_features_list) in
  for_ (enumerate (keys filtered_data)) (fun st '(index, module_fqn) =>
    for_ (seq 0 num_channels) (fun '(channel_table, counter) channel =>
      row ← new_channel_row filtered_data counter module_fqn channel
              channel_features_list;
      Ok (channel_table ++ [row], counter + 1))
    st)
  ([channel_headers], 1).

Definition newline : string := String (Ascii.ascii_of_nat 10) EmptyString.

Definition TENSOR_HEADING : string := "Tensor Level Information " +:+ newline.
Definition CHANNEL_HEADING : string :=
  newline +:+ newline +:+ " Channel Level Information " +:+ newline.
Definition NO_DATA : string := "No data points to generate table with.".

Section TableView.

(** [tabulate(table, headers="firstrow")] of the external package
    [tabulate]; the visualizer only concatenates its output. *)
Variable tabulate : Table → string.

(** Lines 286-298. *)
Definition format_tables (tensor_features_list channel_features_list
    : list string) (tensor_table channel_table : Table) : string :=
  let table_str := "" in
  let table_str :=
    if (0 <? length tensor_features_list)%nat then
      table_str +:+ TENSOR_HEADING +:+ tabulate tensor_table
    else table_str in
  let table_str :=
    if (0 <? length channel_features_list)%nat then
      table_str +:+ CHANNEL_HEADING +:+ tabulate channel_table
    else table_str in
  if bool_decide (table_str = "") then NO_DATA else table_str.

(** Lines 193-306: what [generate_table_view] does once the filtered data
    is at hand.  From here on the function only reads [filtered_data]. *)
Definition table_view_of (filtered_data : Report)
  : result (dict Table * string) :=
  st ← scan_features filtered_data;
  let tensor_features_list := sorted (tensor_features st) in
  let channel_features_list := sorted (channel_features st) in
  tensor_table ← build_tensor_table filtered_data tensor_features_list;
  '(channel_table, _) ←
    build_channel_table filtered_data channel_features_list (num_channels st);
  let table_str :=
    format_tables tensor_features_list channel_features_list
      tensor_table channel_table in
  let table_dict :=
    setitem (setitem [] TABLE_TENSOR_KEY tensor_table)
      TABLE_CHANNEL_KEY channel_table in
  Ok (table_dict, table_str).

(** Lines 147-306. *)
Definition generate_table_view (self : ModelReportVisualizer)
    (feature_filter module_fqn_filter : string)
  : result (dict Table * string) :=
  filtered_data ← _get_filtered_data self feature_filter module_fqn_filter;
  table_view_of filtered_data.

End TableView.

(** Lines 309-351, [generate_plot_view] and [generate_histogram_view]: the
    body is [pass], the call evaluates to [None]. *)
Definition generate_plot_view (self : ModelReportVisualizer)
    (feature module_fqn_prefix_filter : string) : result (option Table) :=
  Ok None.

Definition generate_histogram_view (self : ModelReportVisualizer)
    (feature module_fqn_prefix_filter : string) : result (option Table) :=
  Ok None.

(** ** Well-formed reports and the functional reading of the filter *)

(** Both levels of the report are Python dictionaries. *)
Definition wf_report (r : Report) : Prop :=
  wf_dict r ∧ Forall (λ kv : string * FeatureMap, wf_dict kv.2) r.

(** [flt == "" or flt in name]. *)
Definition matches (flt name : string) : bool :=
  bool_decide (flt = "") || str_contains flt name.

(** The filter as a comprehension: keep the modules that match, and in each
    the features that match, in the original order. *)
Definition filter_spec (feature_filter module_fqn_filter : string) (r : Report)
  : Report :=
  (λ kv : string * FeatureMap,
     (kv.1, filter (λ fv : string * PyVal, matches feature_filter fv.1) kv.2))
  <$> filter (λ kv : string * FeatureMap, matches module_fqn_filter kv.1) r.

(** ** The scan, read as a fold *)

(** The (feature name, value) occurrences in the order the scan visits them:
    module order first, feature order second. *)
Definition feature_values (filtered_data : Report) : list (string * PyVal) :=
  filtered_data ≫= snd.

(** The length of a value that has one, [0] otherwise. *)
Definition seq_len (v : PyVal) : nat :=
  match py_len v with Ok n => n | Raise _ => 0 end.

(** One iteration of the scan. *)
Definition scan_step (st : scan) (fv : string * PyVal) : scan :=
  if py_iterable fv.2 then
    {| tensor_features := tensor_features st;
       channel_features := {[fv.1]} ∪ channel_features st;
       num_channels := seq_len fv.2 |}
  else
    {| tensor_features := {[fv.1]} ∪ tensor_features st;
       channel_features := channel_features st;
       num_channels := num_channels st |}.

Definition scan_init : scan :=
  {| tensor_features := ∅; channel_features := ∅; num_channels := 0 |}.

(** The length of the last iterable value the scan meets, [0] if there is
    none. *)
Definition last_iterable_len (filtered_data : Report) : nat :=
  from_option (λ fv : string * PyVal, seq_len fv.2) 0
    (last (filter (λ fv : string * PyVal, py_iterable fv.2)
             (feature_values filtered_data))).

(** The (module, channel) pairs of the channel table, in row order, for a
    channel count [n]. *)
Definition channel_slots (filtered_data : Report) (n : nat)
  : list (string * nat) :=
  keys filtered_data ≫= λ m, pair m <$> seq 0 n.

(** ** Table cells

    The two innermost loop bodies, for a module whose feature dictionary
    [entry] has already been fetched. *)

Definition tensor_cell (entry : FeatureMap) (feature : string) : result PyVal :=
  feature_val ←
    (if dict_contains entry feature then getitem entry feature
     else Ok NOT_APPLICABLE);
  extract_val feature_val.


(** Module [m] of the dictionary holds feature [f] with value [v]. *)
Definition holds (filtered_data : Report) (m f : string) (v : PyVal) : Prop :=
  ∃ fm, (m, fm) ∈ filtered_data ∧ (f, v) ∈ fm.


Global Instance wf_dict_dec {V} (d : dict V) : Decision (wf_dict d).
Proof. unfold wf_dict. apply _. Defined.

Global Instance wf_report_dec (r : Report) : Decision (wf_report r).
Proof. unfold wf_report. apply _. Defined.

(** ** Example reports *)

Definition scenario6 : ModelReportVisualizer :=
  {| generated_reports :=
       [("layer1", [("max", PyFloat (5#1)); ("min", PyFloat (1#1))]);
        ("layer2", [("max", PyFloat (7#1))])] |}.

Definition scenario6_tensor_table : Table :=
  [[PyStr "idx"; PyStr "layer_fqn"; PyStr "max"; PyStr "min"];
   [PyInt 1; PyStr "layer1"; PyFloat (5#1); PyFloat (1#1)];
   [PyInt 2; PyStr "layer2"; PyFloat (7#1); NOT_APPLICABLE]].

Definition scenario6_channel_table : Table :=
  [[PyStr "idx"; PyStr "layer_fqn"; PyStr "channel"]].

(** A report with two per-channel features of different lengths. *)
Definition two_lengths : ModelReportVisualizer :=
  {| generated_reports :=
       [("layerA", [("per_channel_max", PyList [PyFloat (4#1); PyFloat (5#1);
                                               PyFloat (6#1)]);
                    ("per_channel_min", PyList [PyFloat (1#1); PyFloat (2#1)])]);
        ("layerB", [("per_channel_min",
                     PyTensor (TensorN [Tensor0 (SInt 7); Tensor0 (SInt 8)]))])]
  |}.

(** Scenario 7 of the specification: one per-channel feature. *)
Definition scenario7 : ModelReportVisualizer :=
  {| generated_reports :=
       [("layerA", [("per_channel_min",
                     PyList [PyFloat (1#1); PyFloat (2#1); PyFloat (3#1)])])] |}.


(** The feature "stat" is a scalar in one module and a sequence in the
    other; "short" is shorter than the last sequence scanned. *)
Definition mixed_kinds : ModelReportVisualizer :=
  {| generated_reports :=
       [("layerA", [("stat", PyFloat (1#1))]);
        ("layerB", [("short", PyList [PyFloat (1#1)]);
                    ("stat", PyList [PyFloat (1#1); PyFloat (2#1)])])] |}.


(** ** The same methods over a store of dictionary objects

    Python dictionaries are objects: [self.generated_reports] and the result
    of [_get_filtered_data] are references, and the values of an outer
    dictionary are references to feature dictionaries.  To decide what a call
    can modify, the module below runs the methods over a heap of dictionary
    objects, with allocation and in-place update.  Feature values are
    immutable here: the class never writes through one. *)

Module Store.

Definition loc := nat.

Inductive obj :=
| OReport (d : dict loc)       (* module_fqn -> reference to a feature dict *)
| OFeatures (d : dict PyVal).  (* feature_name -> value *)

Abbreviation heap := (list obj).

(** Computations that read and update the heap and may raise. *)
Definition M (A : Type) : Type := heap → result A * heap.

Global Instance M_ret : MRet M := λ _ a h, (Ok a, h).
Global Instance M_bind : MBind M := λ _ _ f m h,
  match m h with
  | (Ok a, h') => f a h'
  | (Raise e, h') => (Raise e, h')
  end.

Definition lift {A} (r : result A) : M A := λ h, (r, h).

(** A fresh object. *)
Definition alloc (o : obj) : M loc := λ h, (Ok (length h), h ++ [o]).

(** Dereferencing.  A reference outside the heap, or to the other kind of
    dictionary, does not arise from the class; the model answers
    [TypeError]. *)
Definition as_report (l : loc) : M (dict loc) := λ h,
  match h !! l with
  | Some (OReport d) => (Ok d, h)
  | _ => (Raise TypeError, h)
  end.

Definition as_features (l : loc) : M (dict PyVal) := λ h,
  match h !! l with
  | Some (OFeatures d) => (Ok d, h)
  | _ => (Raise TypeError, h)
  end.

Definition write (l : loc) (o : obj) : M unit := λ h, (Ok tt, <[l := o]> h).

(** [list(d)], [d[k]] and [d[k] = v] on the object at [l]. *)
Definition report_keys (l : loc) : M (list string) :=
  d ← as_report l; mret (keys d).

Definition features_keys (l : loc) : M (list string) :=
  d ← as_features l; mret (keys d).

Definition report_getitem (l : loc) (k : string) : M loc :=
  d ← as_report l; lift (getitem d k).

Definition features_getitem (l : loc) (k : string) : M PyVal :=
  d ← as_features l; lift (getitem d k).

Definition report_setitem (l : loc) (k : string) (v : loc) : M unit :=
  d ← as_report l; write l (OReport (setitem d k v)).

Definition features_setitem (l : loc) (k : string) (v : PyVal) : M unit :=
  d ← as_features l; write l (OFeatures (setitem d k v)).

(** [for x in xs: body x]. *)
Fixpoint for_each {A} (xs : list A) (body : A → M unit) : M unit :=
  match xs with
  | [] => mret tt
  | x :: xs' => _ ← body x; for_each xs' body
  end.

(** The instance holds a reference to the report. *)
Record ModelReportVisualizer := {
  generated_reports : loc
}.

Definition _get_filtered_data (self : ModelReportVisualizer)
    (feature_filter module_fqn_filter : string) : M loc :=
  filtered_dict ← alloc (OReport []);
  module_fqns ← report_keys (generated_reports self);
  _ ← for_each module_fqns (λ module_fqn,
    if bool_decide (module_fqn_filter = "")
       || str_contains module_fqn_filter module_fqn then
      entry ← alloc (OFeatures []);
      _ ← report_setitem filtered_dict module_fqn entry;
      module_reports ← report_getitem (generated_reports self) module_fqn;
      feature_names ← features_keys module_reports;
      for_each feature_names (λ feature_name,
        if bool_decide (feature_filter = "")
           || str_contains feature_filter feature_name then
          entry ← report_getitem filtered_dict module_fqn;
          v ← features_getitem module_reports feature_name;
          features_setitem entry feature_name v
        else mret tt)
    else mret tt);
  mret filtered_dict.

(** [for x in xs: s = body s x]. *)
Fixpoint for_fold {A S} (xs : list A) (body : S → A → M S) (s : S) : M S :=
  match xs with
  | [] => mret s
  | x :: xs' => s' ← body s x; for_fold xs' body s'
  end.

Definition get_all_unique_module_fqns (self : ModelReportVisualizer)
  : M (gset string) :=
  module_fqns ← report_keys (generated_reports self);
  mret (list_to_set module_fqns).

Definition get_all_unique_feature_names (self : ModelReportVisualizer)
    (plottable : bool) : M (gset string) :=
  module_fqns ← report_keys (generated_reports self);
  for_fold module_fqns (λ unique_feature_names module_fqn,
    feature_dict ← report_getitem (generated_reports self) module_fqn;
    feature_names ← features_keys feature_dict;
    for_fold feature_names (λ unique_feature_names feature_name,
      if plottable then
        v ← features_getitem feature_dict feature_name;
        match v with
        | PyTensor _ => mret ({[feature_name]} ∪ unique_feature_names)
        | _ => mret unique_feature_names
        end
      else mret ({[feature_name]} ∪ unique_feature_names))
    unique_feature_names) ∅.

Definition generate_plot_view (self : ModelReportVisualizer)
    (feature module_fqn_prefix_filter : string) : M (option Table) :=
  mret None.

Definition generate_histogram_view (self : ModelReportVisualizer)
    (feature module_fqn_prefix_filter : string) : M (option Table) :=
  mret None.

(** A computation that leaves every heap as it found it. *)
Definition read_only {A} (m : M A) : Prop := ∀ h, (m h).2 = h.

(** The report a reference stands for: the dictionary at [l] with every
    feature dictionary read through its reference. *)
Fixpoint load_items (d : dict loc) : M Report :=
  match d with
  | [] => mret []
  | (m, l) :: d' =>
      fm ← as_features l; r ← load_items d'; mret ((m, fm) :: r)
  end.

Definition load (l : loc) : M Report :=
  d ← as_report l; load_items d.

Section TableView.

Variable tabulate : Table → string.

(** After the filter the method only reads [filtered_data]; the reads are
    taken at once. *)
Definition generate_table_view (self : ModelReportVisualizer)
    (feature_filter module_fqn_filter : string) : M (dict Table * string) :=
  filtered_dict ← _get_filtered_data self feature_filter module_fqn_filter;
  filtered_data ← load filtered_dict;
  lift (table_view_of tabulate filtered_data).

End TableView.

(** The references the filter stores in its result when it builds [acc] on
    top of a heap of [n] objects, and the heap it leaves. *)
Definition filtered_refs (n : nat) (acc : Report) : dict loc :=
  zip (keys acc) (seq (S n) (length acc)).

Definition filtered_heap (h : heap) (acc : Report) : heap :=
  h ++ OReport (filtered_refs (length h) acc) :: (OFeatures <$> acc.*2).

(** What [load] reads: the references of [d] lead to the feature
    dictionaries of [r]. *)
Definition stands_for (h : heap) (d : dict loc) (r : Report) : Prop :=
  Forall2 (λ (ml : string * loc) (kv : string * FeatureMap),
             ml.1 = kv.1 ∧ h !! ml.2 = Some (OFeatures kv.2)) d r.

(** Scenario 6 laid out in a heap: two feature dictionaries and the report
    that refers to them. *)
Definition scenario6_heap : heap :=
  [OFeatures [("max", PyFloat (5#1)); ("min", PyFloat (1#1))];
   OFeatures [("max", PyFloat (7#1))];
   OReport [("layer1", 0); ("layer2", 1)]].

Definition scenario6_self : ModelReportVisualizer :=
  {| generated_reports := 2 |}.

End Store.

(** What [get_all_unique_feature_names] asks of a feature of the dictionary
    [fm] before it adds its name. *)
Definition selected (plottable : bool) (fm : FeatureMap) (name : string)
  : Prop :=
  if plottable then ∃ t, getitem fm name = Ok (PyTensor t) else True.

(** [needle] occurs somewhere in [hay]. *)
Definition occurs_in (needle hay : string) : Prop :=
  ∃ pre suf, hay = pre +:+ needle +:+ suf.

(** Module names that carry the filter in the middle, at the start, or not
    at all. *)
Definition nested_names : ModelReportVisualizer :=
  {| generated_reports :=
       [("features.block1.conv", [("max", PyFloat (5#1)); ("min", PyFloat (1#1))]);
        ("block1", [("max", PyFloat (7#1))]);
        ("classifier", [("per_channel_max", PyList [PyFloat (2#1)])])] |}.

(** * Properties *)

(** ** Loops *)

Lemma for_app {A S} (xs ys : list A) (body : S → A → result S) s :
  for_ (xs ++ ys) body s = (s' ← for_ xs body s; for_ ys body s').
Proof.
  revert s; induction xs as [|x xs IH]; intros s; simpl; [done|].
  destruct (body s x); simpl; auto.
Qed.

Lemma for_ext {A S} (xs : list A) (f g : S → A → result S) s :
  (∀ x s, x ∈ xs → f s x = g s x) → for_ xs f s = for_ xs g s.
Proof.
  revert s; induction xs as [|x xs IH]; intros s Hfg; simpl; [done|].
  rewrite Hfg by left. destruct (g s x); simpl; [|done].
  apply IH. intros; apply Hfg; by right.
Qed.

Lemma for_fmap {A B S} (h : A → B) (xs : list A) (body : S → B → result S) s :
  for_ (h <$> xs) body s = for_ xs (λ s x, body s (h x)) s.
Proof.
  revert s; induction xs as [|x xs IH]; intros s; simpl; [done|].
  destruct (body s (h x)); simpl; auto.
Qed.

(** A loop whose body cannot raise is a left fold. *)
Lemma for_pure {A S} (xs : list A) (f : S → A → S) s :
  for_ xs (λ s x, Ok (f s x)) s = Ok (foldl f s xs).
Proof. revert s; induction xs as [|x xs IH]; intros s; simpl; auto. Qed.

(** Invariant rule: the only way out of a loop is through its body. *)
Lemma for_inv {A S} (I : S → Prop) (xs : list A) (body : S → A → result S) s s' :
  (∀ x s s', x ∈ xs → I s → body s x = Ok s' → I s') →
  I s → for_ xs body s = Ok s' → I s'.
Proof.
  revert s; induction xs as [|x xs IH]; intros s Hstep Hs; simpl.
  - by intros [= <-].
  - destruct (body s x) as [s1|] eqn:Hb; simpl; [|done].
    apply IH; [intros; eapply Hstep; eauto; by right|].
    eapply Hstep; eauto; by left.
Qed.


(** Invariant indexed by the iterations already done. *)
Lemma for_ind_prefix {A S} (I : list A → S → Prop) (xs : list A)
    (body : S → A → result S) s0 s' :
  I [] s0 →
  (∀ pre x suf s s1, xs = pre ++ x :: suf →
     I pre s → body s x = Ok s1 → I (pre ++ [x]) s1) →
  for_ xs body s0 = Ok s' → I xs s'.
Proof.
  intros H0 Hstep.
  enough (∀ suf pre s, xs = pre ++ suf → I pre s →
            for_ suf body s = Ok s' → I xs s') as Hgen by (by apply (Hgen xs [])).
  induction suf as [|x suf IH]; intros pre s Hxs Hpre; simpl.
  - intros [= <-]. by rewrite Hxs, app_nil_r.
  - destruct (body s x) as [s1|] eqn:Hb; simpl; [|done].
    apply (IH (pre ++ [x])); [by rewrite <-(assoc_L (++))|eauto].
Qed.

(** A loop whose body succeeds under an invariant succeeds. *)
Lemma for_total {A S} (I : S → Prop) (xs : list A) (body : S → A → result S) s :
  (∀ x s, x ∈ xs → I s → ∃ s1, body s x = Ok s1 ∧ I s1) →
  I s → ∃ s', for_ xs body s = Ok s' ∧ I s'.
Proof.
  revert s; induction xs as [|x xs IH]; intros s Hstep Hs; simpl; [eauto|].
  destruct (Hstep x s) as (s1 & -> & Hs1); [left|done|]. simpl.
  apply IH; [|done]. intros; apply Hstep; [by right|done].
Qed.

Lemma for_total_True {A S} (xs : list A) (body : S → A → result S) s :
  (∀ x s, x ∈ xs → ∃ s1, body s x = Ok s1) → ∃ s', for_ xs body s = Ok s'.
Proof.
  intros Hbody.
  destruct (for_total (λ _, True) xs body s) as (s' & Hs' & _); [|done|eauto].
  intros x s0 Hx _. destruct (Hbody x s0 Hx) as [s1 Hs1]. eauto.
Qed.


(** Nested loops are one loop over the flattened iteration space. *)
Lemma for_bind {A B S} (h : A → list B) (xs : list A)
    (body : A → S → B → result S) s :
  for_ xs (λ s x, for_ (h x) (body x) s) s
  = for_ (xs ≫= λ x, pair x <$> h x) (λ s xy, body xy.1 s xy.2) s.
Proof.
  revert s; induction xs as [|x xs IH]; intros s; cbn; [done|].
  rewrite for_app, for_fmap. cbn.
  destruct (for_ (h x) (body x) s); cbn; auto.
Qed.

(** Loops that append one computed element per iteration. *)
Lemma collect_Ok {A B} (g : A → result B) (xs : list A) (init out : list B) :
  for_ xs (λ acc x, y ← g x; Ok (acc ++ [y])) init = Ok out
  ↔ ∃ ys, out = init ++ ys ∧ Forall2 (λ x y, g x = Ok y) xs ys.
Proof.
  revert init; induction xs as [|x xs IH]; intros init; cbn.
  - split.
    + intros [= <-]. exists []. by rewrite app_nil_r.
    + intros (ys & -> & ->%Forall2_nil_inv_l). by rewrite app_nil_r.
  - destruct (g x) as [y|e] eqn:Hg; cbn.
    + rewrite IH. split.
      * intros (ys & -> & Hys). exists (y :: ys).
        rewrite <-(assoc_L (++)). split; [done|]. by constructor.
      * intros (ys & -> & (y' & ys' & Hy & Hys & ->)%Forall2_cons_inv_l).
        exists ys'. rewrite <-(assoc_L (++)).
        assert (y' = y) as -> by congruence. done.
    + split; [done|].
      intros (ys & _ & (y' & ys' & Hy & _)%Forall2_cons_inv_l). congruence.
Qed.

(** The same with a row counter threaded through the iterations. *)
Lemma count_collect_Ok {A B} (g : nat → A → result B) (xs : list A)
    (tbl : list B) (cnt : nat) (tbl' : list B) (cnt' : nat) :
  for_ xs (λ (st : list B * nat) x,
             let '(table, counter) := st in
             y ← g counter x; Ok (table ++ [y], counter + 1)) (tbl, cnt)
  = Ok (tbl', cnt')
  ↔ ∃ ys, tbl' = tbl ++ ys ∧ cnt' = cnt + length xs
          ∧ Forall2 (λ kx y, g kx.1 kx.2 = Ok y)
              (zip (seq cnt (length xs)) xs) ys.
Proof.
  revert tbl cnt; induction xs as [|x xs IH]; intros tbl cnt; cbn.
  - split.
    + intros [= <- <-]. exists []. by rewrite app_nil_r, Nat.add_0_r.
    + intros (ys & -> & -> & ->%Forall2_nil_inv_l).
      by rewrite app_nil_r, Nat.add_0_r.
  - destruct (g cnt x) as [y|e] eqn:Hg; cbn.
    + rewrite IH, Nat.add_1_r. split.
      * intros (ys & -> & -> & Hys). exists (y :: ys).
        rewrite <-(assoc_L (++)). split_and!; [done|lia|]. by constructor.
      * intros (ys & -> & -> & (y' & ys' & Hy & Hys & ->)%Forall2_cons_inv_l).
        cbn in Hy. exists ys'. rewrite <-(assoc_L (++)).
        assert (y' = y) as -> by congruence. split_and!; [done|lia|done].
    + split; [done|].
      intros (ys & _ & _ & (y' & ys' & Hy & _)%Forall2_cons_inv_l).
      cbn in Hy. congruence.
Qed.

Lemma enumerate_snd {A} (xs : list A) : (enumerate xs).*2 = xs.
Proof. unfold enumerate. apply snd_zip. by rewrite length_seq. Qed.

Lemma length_enumerate {A} (xs : list A) : length (enumerate xs) = length xs.
Proof. unfold enumerate. rewrite length_zip, length_seq. lia. Qed.

(** ** Dictionaries *)


Lemma length_keys {V} (d : dict V) : length (keys d) = length d.
Proof. apply length_fmap. Qed.

Lemma keys_app {V} (d1 d2 : dict V) : keys (d1 ++ d2) = keys d1 ++ keys d2.
Proof. apply fmap_app. Qed.

Lemma getitem_elem_of {V} (d : dict V) k v :
  wf_dict d → (k, v) ∈ d → getitem d k = Ok v.
Proof.
  unfold wf_dict, keys. induction d as [|[k' v'] d IH]; simpl.
  - intros _ H; by apply elem_of_nil in H.
  - rewrite NoDup_cons. intros [Hk Hd] [[= -> ->]|Hin]%elem_of_cons.
    + by rewrite decide_True.
    + rewrite decide_False; [auto|].
      intros ->. apply Hk. apply list_elem_of_fmap. by exists (k, v).
Qed.

Lemma getitem_Ok_elem_of {V} (d : dict V) k v :
  getitem d k = Ok v → (k, v) ∈ d.
Proof.
  induction d as [|[k' v'] d IH]; simpl; [done|].
  case_decide as Hk; [intros [= <-]; subst; left | right; auto].
Qed.

Lemma getitem_Ok_keys {V} (d : dict V) k v : getitem d k = Ok v → k ∈ keys d.
Proof.
  intros H%getitem_Ok_elem_of. apply list_elem_of_fmap. by exists (k, v).
Qed.

Lemma getitem_keys {V} (d : dict V) k : k ∈ keys d → ∃ v, getitem d k = Ok v.
Proof.
  unfold keys. induction d as [|[k' v'] d IH]; simpl.
  - intros H; by apply elem_of_nil in H.
  - case_decide; [eauto|]. intros [?|?]%elem_of_cons; [done|auto].
Qed.

Lemma getitem_app_r {V} (d1 d2 : dict V) k :
  k ∉ keys d1 → getitem (d1 ++ d2) k = getitem d2 k.
Proof.
  unfold keys. induction d1 as [|[k' v'] d1 IH]; simpl; [done|].
  rewrite not_elem_of_cons. intros [? ?]. rewrite decide_False by done. auto.
Qed.

Lemma setitem_fresh {V} (d : dict V) k v :
  k ∉ keys d → setitem d k v = d ++ [(k, v)].
Proof.
  unfold keys. induction d as [|[k' v'] d IH]; simpl; [done|].
  rewrite not_elem_of_cons. intros [? ?]. rewrite decide_False by done.
  f_equal; auto.
Qed.

Lemma setitem_last {V} (d : dict V) k v v' :
  k ∉ keys d → setitem (d ++ [(k, v)]) k v' = d ++ [(k, v')].
Proof.
  unfold keys. induction d as [|[k0 v0] d IH]; simpl.
  - by rewrite decide_True.
  - rewrite not_elem_of_cons. intros [? ?]. rewrite decide_False by done.
    f_equal; auto.
Qed.

(** [for k in d: ... d[k] ...] visits the items of [d] in order. *)
Lemma for_keys_items {V S} (d : dict V) (body : S → string → V → result S) s :
  wf_dict d →
  for_ (keys d) (λ s k, v ← getitem d k; body s k v) s
  = for_ d (λ s kv, body s kv.1 kv.2) s.
Proof.
  intros Hwf. unfold keys. rewrite for_fmap. apply for_ext.
  intros [k v] s' Hin; simpl. by rewrite (getitem_elem_of d k v).
Qed.

Lemma wf_report_inv (r : Report) :
  wf_report r → wf_dict r ∧ ∀ m fm, (m, fm) ∈ r → wf_dict fm.
Proof.
  intros [Hd Hall]. split; [done|]. intros m fm Hin.
  rewrite Forall_forall in Hall. apply (Hall (m, fm) Hin).
Qed.

Lemma filter_none {A} (P : A → Prop) `{∀ x, Decision (P x)} (l : list A) :
  Forall (λ x, ¬ P x) l → filter P l = [].
Proof.
  induction 1 as [|x l Hx _ IH]; [done|]. by rewrite filter_cons_False.
Qed.

(** ** The filter *)

Section filter_loops.
Context (feature_filter module_fqn_filter : string).

Lemma filter_inner_loop (fm : FeatureMap) (acc : Report) m (a : FeatureMap) :
  m ∉ keys acc → NoDup (keys a ++ keys fm) →
  for_ fm (λ (filtered_dict : Report) (fv : string * PyVal),
    if bool_decide (feature_filter = "")
       || str_contains feature_filter fv.1 then
      entry ← getitem filtered_dict m;
      Ok (setitem filtered_dict m (setitem entry fv.1 fv.2))
    else Ok filtered_dict) (acc ++ [(m, a)])
  = Ok (acc ++ [(m, a ++ filter (λ fv : string * PyVal,
                                  matches feature_filter fv.1) fm)]).
Proof.
  intros Hm. revert a. induction fm as [|[f v] fm IH]; intros a Hnd.
  - simpl. by rewrite app_nil_r.
  - cbn [for_ fst snd].
    assert ((f ∉ keys a) ∧ NoDup (keys (a ++ [(f, v)]) ++ keys fm)) as [Hf Hnd'].
    { rewrite keys_app. cbn. rewrite <-(assoc_L (++)). cbn.
      split; [|done].
      apply NoDup_app in Hnd as (_ & Hd & _). intros Hin.
      apply (Hd f Hin). left. }
    destruct (bool_decide (feature_filter = "")
              || str_contains feature_filter f) eqn:Hmatch.
    + rewrite filter_cons_True
        by (unfold matches; cbn; by rewrite Hmatch).
      rewrite getitem_app_r by done. cbn. rewrite decide_True by done. cbn.
      rewrite setitem_last by done. rewrite setitem_fresh by done.
      rewrite IH by done. by rewrite <-(assoc_L (++)).
    + rewrite filter_cons_False
        by (unfold matches; cbn; rewrite Hmatch; intros []).
      cbn. apply IH.
      rewrite keys_app in Hnd'. cbn in Hnd'.
      rewrite <-(assoc_L (++)) in Hnd'. cbn in Hnd'.
      apply NoDup_app in Hnd' as (Ha & Hd & Hfm).
      apply NoDup_app. split_and!; [done| |by apply NoDup_cons in Hfm as [_ ?]].
      intros x Hx Hx'. apply (Hd x Hx). by right.
Qed.

Lemma get_filtered_data_loop (r r2 : Report) (acc : Report) :
  wf_report r → r2 ⊆ r → NoDup (keys acc ++ keys r2) →
  for_ (keys r2) (λ filtered_dict module_fqn,
    if bool_decide (module_fqn_filter = "")
       || str_contains module_fqn_filter module_fqn then
      let filtered_dict := setitem filtered_dict module_fqn [] in
      module_reports ← getitem r module_fqn;
      for_ (keys module_reports) (λ filtered_dict feature_name,
        if bool_decide (feature_filter = "")
           || str_contains feature_filter feature_name then
          entry ← getitem filtered_dict module_fqn;
          v ← getitem module_reports feature_name;
          Ok (setitem filtered_dict module_fqn (setitem entry feature_name v))
        else Ok filtered_dict)
      filtered_dict
    else Ok filtered_dict) acc
  = Ok (acc ++ filter_spec feature_filter module_fqn_filter r2).
Proof.
  intros [Hwf Hin]%wf_report_inv. revert acc.
  induction r2 as [|[m fm] r2 IH]; intros acc Hsub Hnd.
  - simpl. by rewrite app_nil_r.
  - assert ((m ∉ keys acc) ∧ NoDup (keys (acc ++ [(m, fm)]) ++ keys r2))
      as [Hm Hnd'].
    { rewrite keys_app. cbn. rewrite <-(assoc_L (++)). cbn.
      split; [|done].
      apply NoDup_app in Hnd as (_ & Hd & _). intros Hin'.
      apply (Hd m Hin'). left. }
    assert ((m, fm) ∈ r) as Hmr by (apply Hsub; left).
    assert (r2 ⊆ r) as Hsub' by (intros x Hx; apply Hsub; by right).
    unfold filter_spec. cbn [keys fmap list_fmap fst for_].
    fold (keys r2).
    destruct (bool_decide (module_fqn_filter = "")
              || str_contains module_fqn_filter m) eqn:Hmatch.
    + rewrite filter_cons_True by (unfold matches; cbn; by rewrite Hmatch).
      cbn zeta. rewrite (getitem_elem_of r m fm) by done. cbn [mbind result_bind].
      change (keys fm) with (fst <$> fm). rewrite for_fmap.
      erewrite for_ext; last first.
      { intros [f v] fd Hf. cbn [fst].
        rewrite (getitem_elem_of fm f v) by eauto.
        instantiate (1 := λ fd fv,
          if bool_decide (feature_filter = "")
             || str_contains feature_filter fv.1 then
            entry ← getitem fd m;
            Ok (setitem fd m (setitem entry fv.1 fv.2))
          else Ok fd).
        cbn. by destruct (_ || _); [destruct (getitem fd m)|]. }
      rewrite setitem_fresh by done.
      rewrite filter_inner_loop; [|done|by apply Hin in Hmr].
      cbn [mbind result_bind app].
      rewrite IH; [|done|].
      * rewrite fmap_cons. cbn [fst snd]. by rewrite <-(assoc_L (++)).
      * rewrite keys_app in Hnd' |- *. done.
    + rewrite filter_cons_False
        by (unfold matches; cbn; rewrite Hmatch; intros []).
      cbn [mbind result_bind]. apply IH; [done|].
      rewrite keys_app in Hnd'. cbn in Hnd'.
      rewrite <-(assoc_L (++)) in Hnd'. cbn in Hnd'.
      apply NoDup_app in Hnd' as (Ha & Hd & Hfm).
      apply NoDup_app. split_and!; [done| |by apply NoDup_cons in Hfm as [_ ?]].
      intros x Hx Hx'. apply (Hd x Hx). by right.
Qed.

End filter_loops.

(** On a well-formed report the filter never raises and computes the
    comprehension [filter_spec]. *)
Lemma get_filtered_data_spec self feature_filter module_fqn_filter :
  wf_report (generated_reports self) →
  _get_filtered_data self feature_filter module_fqn_filter
  = Ok (filter_spec feature_filter module_fqn_filter (generated_reports self)).
Proof.
  intros Hwf. unfold _get_filtered_data.
  rewrite (get_filtered_data_loop _ _ (generated_reports self)); [done..|].
  apply Hwf.
Qed.

(** ** Feature names *)

Section feature_names.
Context (plottable : bool).

Lemma feature_names_inner (fm : FeatureMap) (fks : list string) s0 :
  fks ⊆ keys fm →
  ∃ s, for_ fks (λ (names : gset string) feature_name,
         if plottable then
           v ← getitem fm feature_name;
           match v with
           | PyTensor _ => Ok ({[feature_name]} ∪ names)
           | _ => Ok names
           end
         else Ok ({[feature_name]} ∪ names)) s0 = Ok s
     ∧ ∀ name, name ∈ s ↔ name ∈ s0 ∨ (name ∈ fks ∧ selected plottable fm name).
Proof.
  revert s0. induction fks as [|f fks IH]; intros s0 Hsub.
  - exists s0. split; [done|]. intros name. rewrite elem_of_nil. tauto.
  - assert (fks ⊆ keys fm) as Hsub' by (intros x Hx; apply Hsub; by right).
    assert (f ∈ keys fm) as [v Hv]%getitem_keys by (apply Hsub; left).
    cbn [for_]. unfold selected in *. destruct plottable.
    + rewrite Hv. cbn [mbind result_bind].
      destruct v as [| | | |t];
        cbn [mbind result_bind];
        [destruct (IH s0 Hsub') as (res & -> & Hs)..
        |destruct (IH ({[f]} ∪ s0) Hsub') as (res & -> & Hs)];
        (exists res; split; [done|]); intros name; rewrite Hs, elem_of_cons;
        try (rewrite elem_of_union, elem_of_singleton);
        split; naive_solver congruence.
    + cbn [mbind result_bind].
      destruct (IH ({[f]} ∪ s0) Hsub') as (s & -> & Hs).
      exists s; split; [done|]. intros name.
      rewrite Hs, elem_of_cons, elem_of_union, elem_of_singleton. tauto.
Qed.

Lemma feature_names_outer (r : Report) (ks : list string) s0 :
  ks ⊆ keys r →
  ∃ s, for_ ks (λ (names : gset string) module_fqn,
         feature_dict ← getitem r module_fqn;
         for_ (keys feature_dict) (λ (names : gset string) feature_name,
           if plottable then
             v ← getitem feature_dict feature_name;
             match v with
             | PyTensor _ => Ok ({[feature_name]} ∪ names)
             | _ => Ok names
             end
           else Ok ({[feature_name]} ∪ names)) names) s0 = Ok s
     ∧ ∀ name, name ∈ s ↔
         name ∈ s0 ∨ ∃ m fm, m ∈ ks ∧ getitem r m = Ok fm
                             ∧ name ∈ keys fm ∧ selected plottable fm name.
Proof.
  revert s0. induction ks as [|m ks IH]; intros s0 Hsub.
  - exists s0. split; [done|]. intros name. split; [auto|].
    intros [?|(? & ? & []%elem_of_nil & _)]; done.
  - assert (ks ⊆ keys r) as Hsub' by (intros x Hx; apply Hsub; by right).
    assert (m ∈ keys r) as [fm Hfm]%getitem_keys by (apply Hsub; left).
    cbn [for_]. rewrite Hfm. cbn [mbind result_bind].
    destruct (feature_names_inner fm (keys fm) s0) as (s1 & -> & Hs1); [done|].
    cbn [mbind result_bind].
    destruct (IH s1 Hsub') as (s & -> & Hs).
    exists s; split; [done|]. intros name. rewrite Hs, Hs1. split.
    + intros [[?|[? ?]]|(m' & fm' & ? & ? & ? & ?)]; [by left|right..].
      * exists m, fm. split_and!; [left|done..].
      * exists m', fm'. split_and!; [by right|done..].
    + intros [?|(m' & fm' & [->|?]%elem_of_cons & Hget & ? & ?)];
        [by do 2 left| |right; by exists m', fm'].
      left; right. rewrite Hfm in Hget. by injection Hget as <-.
Qed.

End feature_names.

(** ** The stub views *)

Lemma stub_views_return_None self feature module_fqn_prefix_filter :
  generate_plot_view self feature module_fqn_prefix_filter = Ok None
  ∧ generate_histogram_view self feature module_fqn_prefix_filter = Ok None.
Proof. done. Qed.

(** ** The scan *)

Lemma py_len_iterable v : py_iterable v = true → py_len v = Ok (seq_len v).
Proof. unfold seq_len. by destruct v as [| | | |[]]. Qed.

Lemma foldl_bind {A B S} (f : S → B → S) (h : A → list B) (xs : list A) s :
  foldl (λ s x, foldl f s (h x)) s xs = foldl f s (xs ≫= h).
Proof.
  revert s; induction xs as [|x xs IH]; intros s; cbn; [done|].
  by rewrite foldl_app, IH.
Qed.

(** On a well-formed dictionary the scan never raises: it is the fold of
    [scan_step] over the feature occurrences. *)
Lemma scan_features_fold (filtered_data : Report) :
  wf_report filtered_data →
  scan_features filtered_data
  = Ok (foldl scan_step scan_init (feature_values filtered_data)).
Proof.
  intros [Hwf Hin]%wf_report_inv. unfold scan_features, feature_values.
  rewrite <-foldl_bind, <-for_pure.
  change (keys filtered_data) with (fst <$> filtered_data).
  rewrite for_fmap. apply for_ext. intros [m fm] st Hm. cbn [fst snd].
  rewrite (getitem_elem_of filtered_data m fm) by done. cbn [mbind result_bind].
  rewrite <-for_pure. change (keys fm) with (fst <$> fm).
  rewrite for_fmap. apply for_ext. intros [f v] st' Hf. cbn [fst snd].
  rewrite (getitem_elem_of fm f v) by eauto. cbn [mbind result_bind].
  unfold scan_step; cbn [fst snd].
  destruct (py_iterable v) eqn:Hv; [|done].
  by rewrite py_len_iterable.
Qed.

Lemma scan_fold_tensor_features (l : list (string * PyVal)) st f :
  f ∈ tensor_features (foldl scan_step st l)
  ↔ f ∈ tensor_features st ∨ ∃ v, (f, v) ∈ l ∧ py_iterable v = false.
Proof.
  revert st; induction l as [|[f' v'] l IH]; intros st; cbn [foldl].
  - split; [auto|]. intros [?|(? & []%elem_of_nil & _)]; done.
  - rewrite IH. unfold scan_step; cbn [fst snd].
    destruct (py_iterable v') eqn:Hv'; cbn [tensor_features];
      [|rewrite elem_of_union, elem_of_singleton];
      setoid_rewrite elem_of_cons; naive_solver congruence.
Qed.

Lemma scan_fold_channel_features (l : list (string * PyVal)) st f :
  f ∈ channel_features (foldl scan_step st l)
  ↔ f ∈ channel_features st ∨ ∃ v, (f, v) ∈ l ∧ py_iterable v = true.
Proof.
  revert st; induction l as [|[f' v'] l IH]; intros st; cbn [foldl].
  - split; [auto|]. intros [?|(? & []%elem_of_nil & _)]; done.
  - rewrite IH. unfold scan_step; cbn [fst snd].
    destruct (py_iterable v') eqn:Hv'; cbn [channel_features];
      [rewrite elem_of_union, elem_of_singleton|];
      setoid_rewrite elem_of_cons; naive_solver congruence.
Qed.

Lemma scan_fold_num_channels (l : list (string * PyVal)) st :
  num_channels (foldl scan_step st l)
  = from_option (λ fv : string * PyVal, seq_len fv.2) (num_channels st)
      (last (filter (λ fv : string * PyVal, py_iterable fv.2) l)).
Proof.
  revert st; induction l as [|[f v] l IH]; intros st; cbn [foldl]; [done|].
  rewrite IH. unfold scan_step; cbn [fst snd].
  destruct (py_iterable v) eqn:Hv.
  - rewrite filter_cons_True by (cbn; by rewrite Hv).
    cbn [num_channels].
    destruct (filter _ l) as [|y ys]; [done|].
    rewrite last_cons_cons.
    destruct (last (y :: ys)) eqn:Hlast; [done|by apply last_None in Hlast].
  - rewrite filter_cons_False by (cbn; rewrite Hv; intros []). done.
Qed.

(** ** Sorting a set of names *)

Lemma sorted_elem_of (s : gset string) f : f ∈ sorted s ↔ f ∈ s.
Proof. unfold sorted. by rewrite merge_sort_Permutation, elem_of_elements. Qed.

Lemma sorted_Sorted (s : gset string) : Sorted String.le (sorted s).
Proof. apply (Sorted_merge_sort String.le). Qed.

Lemma sorted_NoDup (s : gset string) : NoDup (sorted s).
Proof. unfold sorted. rewrite merge_sort_Permutation. apply NoDup_elements. Qed.

Lemma sorted_nil (s : gset string) : sorted s = [] ↔ s = ∅.
Proof.
  split.
  - intros Hs. apply set_eq. intros f.
    rewrite <-sorted_elem_of, Hs, elem_of_nil. set_solver.
  - intros ->. unfold sorted. by rewrite elements_empty.
Qed.

(** ** Rows and tables *)

Lemma for_append_shape {A B} (body : list B → A → result (list B))
    (xs : list A) (init out : list B) :
  (∀ acc x acc', body acc x = Ok acc' → ∃ y, acc' = acc ++ [y]) →
  for_ xs body init = Ok out →
  ∃ ys, out = init ++ ys ∧ length ys = length xs.
Proof.
  intros Hbody.
  apply (for_ind_prefix
           (λ pre acc, ∃ ys, acc = init ++ ys ∧ length ys = length pre)).
  - exists []. by rewrite app_nil_r.
  - intros pre x suf acc acc' _ (ys & -> & Hlen) [y ->]%Hbody.
    exists (ys ++ [y]). rewrite (assoc_L (++)), !length_app, Hlen. done.
Qed.

(** Destructs the first bind of a hypothesis [m ≫= k = Ok _]. *)
Ltac bind_inv H :=
  match type of H with
  | mbind _ ?m = Ok _ =>
      let E := fresh "E" in
      destruct m eqn:E; cbn [mbind result_bind] in H; [|discriminate H]
  end.

Lemma tensor_table_row_shape fd index m tfl row :
  tensor_table_row fd index m tfl = Ok row →
  ∃ cells, row = [PyInt (index + 1); PyStr m] ++ cells
           ∧ length cells = length tfl.
Proof.
  apply for_append_shape. intros acc f acc' H.
  bind_inv H. bind_inv H. bind_inv H. injection H as <-. eauto.
Qed.

Lemma new_channel_row_shape fd counter m channel cfl row :
  new_channel_row fd counter m channel cfl = Ok row →
  ∃ cells, row = [PyInt counter; PyStr m; PyInt channel] ++ cells
           ∧ length cells = length cfl.
Proof.
  apply for_append_shape. intros acc f acc' H.
  bind_inv H. bind_inv H. bind_inv H. injection H as <-. eauto.
Qed.

(** With the module's dictionary at hand the rows are built cell by cell. *)
Lemma tensor_table_row_cells fd index m entry tfl :
  getitem fd m = Ok entry →
  tensor_table_row fd index m tfl
  = for_ tfl (λ row feature, y ← tensor_cell entry feature; Ok (row ++ [y]))
      [PyInt (index + 1); PyStr m].
Proof.
  intros Hm. apply for_ext. intros f row _. rewrite Hm. cbn [mbind result_bind].
  unfold tensor_cell. destruct (dict_contains entry f); cbn [mbind result_bind].
  - by destruct (getitem entry f) as [v|]; cbn; [destruct (extract_val v)|].
  - by destruct (extract_val NOT_APPLICABLE).
Qed.


Lemma build_tensor_table_Ok fd tfl tt :
  build_tensor_table fd tfl = Ok tt ↔
  ∃ rows, tt = ([PyStr "idx"; PyStr "layer_fqn"] ++ (PyStr <$> tfl)) :: rows
    ∧ Forall2 (λ (im : nat * string) row,
                 tensor_table_row fd im.1 im.2 tfl = Ok row)
        (enumerate (keys fd)) rows.
Proof.
  unfold build_tensor_table.
  erewrite for_ext; last first.
  { intros [i m] tbl _.
    by instantiate (1 := λ tbl im,
         row ← tensor_table_row fd im.1 im.2 tfl; Ok (tbl ++ [row])). }
  apply (collect_Ok (λ im : nat * string, tensor_table_row fd im.1 im.2 tfl)).
Qed.

Lemma length_channel_slots (fd : Report) n :
  length (channel_slots fd n) = length fd * n.
Proof.
  unfold channel_slots, keys. induction fd as [|[m fm] fd IH]; [done|].
  cbn. rewrite length_app, length_fmap, length_seq. unfold keys in IH. lia.
Qed.

Lemma build_channel_table_loop fd cfl n st :
  for_ (enumerate (keys fd)) (fun st '(index, module_fqn) =>
    for_ (seq 0 n) (fun '(channel_table, counter) channel =>
      row ← new_channel_row fd counter module_fqn channel cfl;
      Ok (channel_table ++ [row], counter + 1))
    st) st
  = for_ (channel_slots fd n) (λ (st : Table * nat) (mc : string * nat),
      let '(channel_table, counter) := st in
      row ← new_channel_row fd counter mc.1 mc.2 cfl;
      Ok (channel_table ++ [row], counter + 1)) st.
Proof.
  unfold channel_slots.
  rewrite <-(for_bind (λ _, seq 0 n) (keys fd)
    (λ m (st : Table * nat) channel,
       let '(channel_table, counter) := st in
       row ← new_channel_row fd counter m channel cfl;
       Ok (channel_table ++ [row], counter + 1))).
  rewrite <-(enumerate_snd (keys fd)) at 2. rewrite for_fmap.
  apply for_ext. intros [i m] st' _.
  apply for_ext. by intros c [tbl k] _.
Qed.

Lemma build_channel_table_Ok fd cfl n ct cnt :
  build_channel_table fd cfl n = Ok (ct, cnt) ↔
  ∃ rows,
    ct = ([PyStr "idx"; PyStr "layer_fqn"; PyStr "channel"] ++ (PyStr <$> cfl))
           :: rows
    ∧ cnt = 1 + length fd * n
    ∧ Forall2 (λ (kmc : nat * (string * nat)) row,
                 new_channel_row fd kmc.1 kmc.2.1 kmc.2.2 cfl = Ok row)
        (zip (seq 1 (length fd * n)) (channel_slots fd n)) rows.
Proof.
  unfold build_channel_table. rewrite build_channel_table_loop.
  rewrite <-length_channel_slots.
  apply (count_collect_Ok
           (λ k (mc : string * nat), new_channel_row fd k mc.1 mc.2 cfl)).
Qed.

(** ** The table view, step by step *)

Lemma generate_table_view_Ok tabulate self feature_filter module_fqn_filter
    bundle table_str :
  generate_table_view tabulate self feature_filter module_fqn_filter
  = Ok (bundle, table_str) ↔
  ∃ fd st tt ct cnt,
    _get_filtered_data self feature_filter module_fqn_filter = Ok fd
    ∧ scan_features fd = Ok st
    ∧ build_tensor_table fd (sorted (tensor_features st)) = Ok tt
    ∧ build_channel_table fd (sorted (channel_features st)) (num_channels st)
      = Ok (ct, cnt)
    ∧ bundle = [(TABLE_TENSOR_KEY, tt); (TABLE_CHANNEL_KEY, ct)]
    ∧ table_str = format_tables tabulate (sorted (tensor_features st))
                    (sorted (channel_features st)) tt ct.
Proof.
  unfold generate_table_view, table_view_of. split.
  - intros H. bind_inv H. bind_inv H. bind_inv H. bind_inv H.
    destruct a2 as [ct cnt]. injection H as <- <-.
    by eexists _, _, _, _, _.
  - intros (fd & st & tt & ct & cnt & H1 & H2 & H3 & H4 & -> & ->).
    rewrite H1; cbn [mbind result_bind]. rewrite H2; cbn [mbind result_bind].
    rewrite H3; cbn [mbind result_bind]. by rewrite H4.
Qed.

(** The scan preserves every property that [scan_step] preserves. *)
Lemma scan_features_inv (I : scan → Prop) (fd : Report) st :
  I scan_init →
  (∀ st m entry f v, getitem fd m = Ok entry → getitem entry f = Ok v →
     I st → I (scan_step st (f, v))) →
  scan_features fd = Ok st → I st.
Proof.
  intros H0 Hstep. unfold scan_features. apply for_inv; [|done].
  intros m st1 st2 _ Hst1 H. bind_inv H. revert H. apply for_inv; [|done].
  intros f st3 st4 _ Hst3 H. bind_inv H.
  specialize (Hstep st3 m a f a0 E E0 Hst3). unfold scan_step in Hstep.
  cbn [fst snd] in Hstep. destruct (py_iterable a0) eqn:Hit.
  - rewrite py_len_iterable in H by done. by injection H as <-.
  - by injection H as <-.
Qed.

Lemma scan_no_channel_features fd st :
  scan_features fd = Ok st → channel_features st = ∅ → num_channels st = 0.
Proof.
  apply (scan_features_inv (λ st, channel_features st = ∅ → num_channels st = 0));
    [done|].
  intros st' m entry f v _ _ IH. unfold scan_step; cbn [fst snd].
  destruct (py_iterable v); cbn; [set_solver|done].
Qed.

Lemma scan_no_iterable fd st :
  scan_features fd = Ok st →
  (∀ m f v, holds fd m f v → py_iterable v = false) → num_channels st = 0.
Proof.
  intros Hscan Hno. revert Hscan.
  apply (scan_features_inv (λ st, num_channels st = 0)); [done|].
  intros st' m entry f v Hm%getitem_Ok_elem_of Hf%getitem_Ok_elem_of IH.
  unfold scan_step; cbn [fst snd].
  rewrite (Hno m f v) by by exists entry. done.
Qed.

(** ** Facts about the filter comprehension *)

Lemma wf_dict_filter {V} (P : string * V → Prop) `{∀ x, Decision (P x)}
    (d : dict V) :
  wf_dict d → wf_dict (filter P d).
Proof.
  unfold wf_dict, keys. intros Hd. eapply sublist_NoDup; [done|].
  apply fmap_sublist, sublist_filter.
Qed.

Lemma keys_filter_spec feature_filter module_fqn_filter (r : Report) :
  keys (filter_spec feature_filter module_fqn_filter r)
  = keys (filter (λ kv : string * FeatureMap, matches module_fqn_filter kv.1) r).
Proof. unfold filter_spec, keys. by rewrite <-list_fmap_compose. Qed.

Lemma elem_of_filter_spec feature_filter module_fqn_filter (r : Report) m fm' :
  (m, fm') ∈ filter_spec feature_filter module_fqn_filter r ↔
  ∃ fm, (m, fm) ∈ r ∧ matches module_fqn_filter m
        ∧ fm' = filter (λ fv : string * PyVal, matches feature_filter fv.1) fm.
Proof.
  unfold filter_spec. rewrite list_elem_of_fmap. split.
  - intros ([m0 fm] & [= -> ->] & [Hm Hin]%list_elem_of_filter). by exists fm.
  - intros (fm & Hin & Hm & ->). exists (m, fm). split; [done|].
    by apply list_elem_of_filter.
Qed.

Lemma wf_filter_spec feature_filter module_fqn_filter (r : Report) :
  wf_report r → wf_report (filter_spec feature_filter module_fqn_filter r).
Proof.
  intros [Hwf Hin]%wf_report_inv. split.
  - unfold wf_dict. rewrite keys_filter_spec. by apply wf_dict_filter.
  - apply Forall_forall. intros [m fm'] (fm & Hm & _ & ->)%elem_of_filter_spec.
    apply wf_dict_filter; eauto.
Qed.

Lemma matches_empty name : matches "" name = true.
Proof. done. Qed.

Lemma filter_spec_empty (r : Report) : filter_spec "" "" r = r.
Proof.
  unfold filter_spec.
  assert (∀ {V} (d : dict V),
            filter (λ kv : string * V, matches "" kv.1) d = d) as Hid.
  { intros V d. induction d as [|kv d IH]; [done|].
    rewrite filter_cons_True by done. by rewrite IH. }
  rewrite Hid. induction r as [|[m fm] r IH]; [done|].
  cbn. rewrite Hid. f_equal. apply IH.
Qed.

(** ** Values *)







Lemma extract_val_not_iterable v :
  py_iterable v = false → is_ok (extract_val v) = true.
Proof. by destruct v as [| | | |[]]. Qed.

Lemma dict_contains_true {V} (d : dict V) k :
  dict_contains d k = true → ∃ v, getitem d k = Ok v.
Proof. intros H%bool_decide_eq_true. by apply getitem_keys. Qed.


(** ** The scan, characterised *)

Lemma elem_of_feature_values (fd : Report) f v :
  (f, v) ∈ feature_values fd ↔ ∃ m, holds fd m f v.
Proof.
  unfold feature_values, holds. rewrite list_elem_of_bind. split.
  - intros ([m fm] & Hf & Hm). by exists m, fm.
  - intros (m & fm & Hm & Hf). by exists (m, fm).
Qed.

Lemma scan_features_spec (fd : Report) :
  wf_report fd →
  ∃ st, scan_features fd = Ok st
    ∧ (∀ f, f ∈ tensor_features st ↔
            ∃ m v, holds fd m f v ∧ py_iterable v = false)
    ∧ (∀ f, f ∈ channel_features st ↔
            ∃ m v, holds fd m f v ∧ py_iterable v = true)
    ∧ num_channels st = last_iterable_len fd.
Proof.
  intros Hwf. eexists. split; [by apply scan_features_fold|].
  split_and!.
  - intros f. rewrite scan_fold_tensor_features.
    setoid_rewrite elem_of_feature_values. cbn. set_solver.
  - intros f. rewrite scan_fold_channel_features.
    setoid_rewrite elem_of_feature_values. cbn. set_solver.
  - apply scan_fold_num_channels.
Qed.

(** ** When the tables can be built *)

Lemma elem_of_enumerate_keys (fd : Report) i m :
  (i, m) ∈ enumerate (keys fd) → ∃ fm, getitem fd m = Ok fm.
Proof.
  intros H. apply getitem_keys. rewrite <-(enumerate_snd (keys fd)).
  apply list_elem_of_fmap. by exists (i, m).
Qed.


Lemma build_tensor_table_total (fd : Report) tfl :
  (∀ m f v, holds fd m f v → f ∈ tfl → is_ok (extract_val v) = true) →
  ∃ tt, build_tensor_table fd tfl = Ok tt.
Proof.
  intros Hcells. unfold build_tensor_table. apply for_total_True.
  intros [i m] tbl [fm Hm]%elem_of_enumerate_keys.
  rewrite (tensor_table_row_cells fd i m fm) by done.
  match goal with
  | |- ∃ s1, mbind _ ?r = Ok s1 =>
      enough (∃ row, r = Ok row) as [row ->] by (by eexists)
  end.
  apply for_total_True. intros f row Hf. unfold tensor_cell.
  destruct (dict_contains fm f) eqn:Hc; cbn [mbind result_bind].
  - destruct (dict_contains_true fm f Hc) as [v Hv]. rewrite Hv. cbn.
    specialize (Hcells m f v). destruct (extract_val v); cbn; [eauto|].
    discriminate Hcells; [|done].
    exists fm. eauto using getitem_Ok_elem_of.
  - cbn. eauto.
Qed.





(** ** The store *)

Module StoreFacts.
Import Store.

Lemma bind_run {A B} (m : M A) (f : A → M B) h a h' :
  m h = (Ok a, h') → (m ≫= f) h = f a h'.
Proof. unfold mbind, M_bind. by intros ->. Qed.

Lemma as_report_run l d h :
  h !! l = Some (OReport d) → as_report l h = (Ok d, h).
Proof. unfold as_report. by intros ->. Qed.

Lemma as_features_run l d h :
  h !! l = Some (OFeatures d) → as_features l h = (Ok d, h).
Proof. unfold as_features. by intros ->. Qed.

Lemma report_getitem_run l d k v h :
  h !! l = Some (OReport d) → getitem d k = Ok v →
  report_getitem l k h = (Ok v, h).
Proof.
  intros Hl Hk. unfold report_getitem.
  erewrite bind_run by by apply as_report_run. unfold lift. by rewrite Hk.
Qed.

Lemma features_getitem_run l d k v h :
  h !! l = Some (OFeatures d) → getitem d k = Ok v →
  features_getitem l k h = (Ok v, h).
Proof.
  intros Hl Hk. unfold features_getitem.
  erewrite bind_run by by apply as_features_run. unfold lift. by rewrite Hk.
Qed.

Lemma report_setitem_run l d k v h :
  h !! l = Some (OReport d) →
  report_setitem l k v h = (Ok tt, <[l := OReport (setitem d k v)]> h).
Proof.
  intros Hl. unfold report_setitem.
  by erewrite bind_run by by apply as_report_run.
Qed.

Lemma features_setitem_run l d k v h :
  h !! l = Some (OFeatures d) →
  features_setitem l k v h = (Ok tt, <[l := OFeatures (setitem d k v)]> h).
Proof.
  intros Hl. unfold features_setitem.
  by erewrite bind_run by by apply as_features_run.
Qed.

Lemma load_items_intro h d r :
  stands_for h d r → load_items d h = (Ok r, h).
Proof.
  induction 1 as [|[m l] [m' fm] d r [Hm Hl] _ IH]; cbn in *; [done|].
  subst m'. unfold mbind, M_bind. rewrite (as_features_run _ _ _ Hl).
  by rewrite IH.
Qed.

Lemma load_items_inv d h r h' :
  load_items d h = (Ok r, h') → h' = h ∧ stands_for h d r.
Proof.
  revert r h'. induction d as [|[m l] d IH]; intros r h'; cbn.
  - intros [= <- <-]. split; [done|constructor].
  - unfold mbind, M_bind, as_features.
    destruct (h !! l) as [[dr|fm]|] eqn:Hl; try done.
    destruct (load_items d h) as [[r0|e] h0] eqn:Hd; [|done].
    intros [= <- <-]. destruct (IH r0 h0 eq_refl) as [-> Hr0].
    split; [done|]. by constructor.
Qed.

Lemma load_Ok l h r h' :
  load l h = (Ok r, h') ↔
  h' = h ∧ ∃ d, h !! l = Some (OReport d) ∧ stands_for h d r.
Proof.
  unfold load, mbind, M_bind, as_report.
  destruct (h !! l) as [[d|fm]|] eqn:Hl.
  - split.
    + intros [-> Hd]%load_items_inv. eauto.
    + intros [-> (d' & [= <-] & Hd)]. by apply load_items_intro.
  - split; [done|]. by intros [_ (d' & [=] & _)].
  - split; [done|]. by intros [_ (d' & [=] & _)].
Qed.

(** Through the references one reaches the feature dictionaries. *)
Lemma stands_for_elem_of h d (r : Report) m fm :
  stands_for h d r → wf_dict r → (m, fm) ∈ r →
  ∃ l, getitem d m = Ok l ∧ h !! l = Some (OFeatures fm).
Proof.
  unfold wf_dict, keys. induction 1 as [|[m' l'] [m'' fm'] d r [Hm Hl] _ IH];
    cbn in *.
  - intros _ []%elem_of_nil.
  - subst m''. rewrite NoDup_cons. intros [Hnew Hnd].
    intros [[= -> ->]|Hin]%elem_of_cons.
    + exists l'. by rewrite decide_True.
    + rewrite decide_False; [by apply IH|].
      intros ->. apply Hnew. apply list_elem_of_fmap. by exists (m, fm).
Qed.

Lemma stands_for_keys h d (r : Report) : stands_for h d r → keys d = keys r.
Proof.
  unfold keys. induction 1 as [|[m l] [m' fm] d r [Hm _] _ IH]; [done|].
  cbn in *. by rewrite Hm, IH.
Qed.

Lemma stands_for_extend h ext d (r : Report) :
  stands_for h d r → stands_for (h ++ ext) d r.
Proof.
  intros Hd. eapply Forall2_impl; [exact Hd|].
  intros [m l] [m' fm] [? Hl]. split; [done|].
  by apply lookup_app_l_Some.
Qed.

(** *** Read-only computations *)

Lemma read_only_ret {A} (a : A) : read_only (mret a).
Proof. done. Qed.

Lemma read_only_lift {A} (r : result A) : read_only (lift r).
Proof. done. Qed.

Lemma read_only_bind {A B} (m : M A) (f : A → M B) :
  read_only m → (∀ a, read_only (f a)) → read_only (m ≫= f).
Proof.
  intros Hm Hf h. unfold mbind, M_bind. specialize (Hm h).
  destruct (m h) as [[a|e] h']; cbn in *; subst h'; [apply Hf|done].
Qed.

Lemma read_only_as_report l : read_only (as_report l).
Proof. intros h. unfold as_report. by destruct (h !! l) as [[]|]. Qed.

Lemma read_only_as_features l : read_only (as_features l).
Proof. intros h. unfold as_features. by destruct (h !! l) as [[]|]. Qed.

Lemma read_only_for_fold {A S} (xs : list A) (body : S → A → M S) s :
  (∀ s x, read_only (body s x)) → read_only (for_fold xs body s).
Proof.
  intros Hbody. revert s. induction xs as [|x xs IH]; intros s; cbn.
  - apply read_only_ret.
  - apply read_only_bind; [apply Hbody|apply IH].
Qed.

Create HintDb read_only.
#[local] Hint Resolve read_only_ret read_only_lift read_only_as_report
  read_only_as_features : read_only.

Ltac read_only_tac :=
  repeat first
    [ apply read_only_bind; [|intros ?]
    | apply read_only_for_fold; intros ? ?
    | match goal with
      | |- read_only (if ?b then _ else _) => destruct b
      | |- read_only (match ?v with _ => _ end) => destruct v
      end
    | solve [auto with read_only] ].

Lemma read_only_feature_names self plottable :
  read_only (Store.get_all_unique_feature_names self plottable).
Proof.
  unfold Store.get_all_unique_feature_names, report_keys, report_getitem,
    features_keys, features_getitem.
  read_only_tac.
Qed.

Lemma read_only_module_fqns self :
  read_only (Store.get_all_unique_module_fqns self).
Proof.
  unfold Store.get_all_unique_module_fqns, report_keys. read_only_tac.
Qed.

(** *** The heap the filter builds *)

Lemma length_filtered_heap h acc :
  length (filtered_heap h acc) = S (length h + length acc).
Proof.
  unfold filtered_heap. rewrite length_app. cbn. rewrite !length_fmap. lia.
Qed.

Lemma keys_filtered_refs n (acc : Report) : keys (filtered_refs n acc) = keys acc.
Proof.
  unfold filtered_refs, keys. apply fst_zip.
  rewrite length_seq, length_fmap. done.
Qed.

Lemma filtered_refs_snoc n (acc : Report) m a :
  filtered_refs n (acc ++ [(m, a)])
  = filtered_refs n acc ++ [(m, S n + length acc)].
Proof.
  unfold filtered_refs. rewrite keys_app, length_app, seq_app. cbn.
  rewrite zip_with_app by (by rewrite length_keys, length_seq). done.
Qed.

Lemma filtered_heap_snoc h acc m a :
  filtered_heap h (acc ++ [(m, a)])
  = h ++ OReport (filtered_refs (length h) acc ++ [(m, S (length h) + length acc)])
         :: (OFeatures <$> acc.*2) ++ [OFeatures a].
Proof.
  unfold filtered_heap. by rewrite filtered_refs_snoc, !fmap_app.
Qed.

Lemma filtered_heap_lookup_old h acc l o :
  h !! l = Some o → filtered_heap h acc !! l = Some o.
Proof. intros Hl. unfold filtered_heap. by apply lookup_app_l_Some. Qed.

Lemma filtered_heap_lookup_fd h acc :
  filtered_heap h acc !! length h
  = Some (OReport (filtered_refs (length h) acc)).
Proof. unfold filtered_heap. by rewrite list_lookup_middle. Qed.

Lemma filtered_heap_lookup_last h acc m a :
  filtered_heap h (acc ++ [(m, a)]) !! (S (length h) + length acc)
  = Some (OFeatures a).
Proof.
  rewrite filtered_heap_snoc. rewrite lookup_app_r by lia.
  replace (S (length h) + length acc - length h) with (S (length acc)) by lia.
  simpl. rewrite lookup_app_r by (rewrite !length_fmap; lia).
  rewrite !length_fmap. by rewrite Nat.sub_diag.
Qed.

Lemma filtered_heap_insert_last h acc m a a' :
  <[S (length h) + length acc := OFeatures a']>
    (filtered_heap h (acc ++ [(m, a)]))
  = filtered_heap h (acc ++ [(m, a')]).
Proof.
  rewrite !filtered_heap_snoc. rewrite insert_app_r_alt by lia.
  replace (S (length h) + length acc - length h) with (S (length acc)) by lia.
  simpl. rewrite insert_app_r_alt by (rewrite !length_fmap; lia).
  rewrite !length_fmap. by rewrite Nat.sub_diag.
Qed.

(** [filtered_dict[m] = {}] for a module not yet in the result. *)
Lemma new_entry_heap h acc m :
  m ∉ keys acc →
  <[length h := OReport (setitem (filtered_refs (length h) acc) m
                           (length (filtered_heap h acc)))]>
    (filtered_heap h acc ++ [OFeatures []])
  = filtered_heap h (acc ++ [(m, [])]).
Proof.
  intros Hm. rewrite setitem_fresh by by rewrite keys_filtered_refs.
  rewrite length_filtered_heap, filtered_heap_snoc.
  unfold filtered_heap. rewrite <-(assoc_L (++)). cbn.
  rewrite insert_app_r_alt by lia. by rewrite Nat.sub_diag.
Qed.

Lemma filtered_refs_getitem_last n (acc : Report) m a :
  m ∉ keys acc →
  getitem (filtered_refs n (acc ++ [(m, a)])) m = Ok (S n + length acc).
Proof.
  intros Hm. rewrite filtered_refs_snoc.
  rewrite getitem_app_r by by rewrite keys_filtered_refs.
  cbn. by rewrite decide_True.
Qed.

Section filter_runs.
Context (feature_filter module_fqn_filter : string).

Lemma filter_features_run h acc m (lm : loc) (fm fm2 a : FeatureMap) :
  h !! lm = Some (OFeatures fm) → wf_dict fm → fm2 ⊆ fm →
  m ∉ keys acc → NoDup (keys a ++ keys fm2) →
  for_each (keys fm2) (λ feature_name,
    if bool_decide (feature_filter = "")
       || str_contains feature_filter feature_name then
      entry ← report_getitem (length h) m;
      v ← features_getitem lm feature_name;
      features_setitem entry feature_name v
    else mret tt) (filtered_heap h (acc ++ [(m, a)]))
  = (Ok tt,
     filtered_heap h
       (acc ++ [(m, a ++ filter (λ fv : string * PyVal,
                                   matches feature_filter fv.1) fm2)])).
Proof.
  intros Hlm Hwf Hsub Hm. revert a.
  induction fm2 as [|[f v] fm2 IH]; intros a Hnd.
  - cbn. by rewrite app_nil_r.
  - assert ((f ∉ keys a) ∧ NoDup (keys (a ++ [(f, v)]) ++ keys fm2))
      as [Hf Hnd'].
    { rewrite keys_app. cbn. rewrite <-(assoc_L (++)). cbn.
      split; [|done].
      apply NoDup_app in Hnd as (_ & Hd & _). intros Hin.
      apply (Hd f Hin). left. }
    assert (fm2 ⊆ fm) as Hsub' by (intros x Hx; apply Hsub; by right).
    assert (NoDup (keys a ++ keys fm2)) as Hnd''.
    { rewrite keys_app in Hnd'. cbn in Hnd'.
      rewrite <-(assoc_L (++)) in Hnd'. cbn in Hnd'.
      apply NoDup_app in Hnd' as (Ha & Hd & Hfm).
      apply NoDup_app. split_and!; [done| |by apply NoDup_cons in Hfm as [_ ?]].
      intros x Hx Hx'. apply (Hd x Hx). by right. }
    cbn [keys fmap list_fmap fst for_each]. fold (keys fm2).
    destruct (bool_decide (feature_filter = "")
              || str_contains feature_filter f) eqn:Hmatch.
    + rewrite filter_cons_True by (unfold matches; cbn; by rewrite Hmatch).
      erewrite bind_run; last first.
      { erewrite bind_run; last first.
        { eapply report_getitem_run; [apply filtered_heap_lookup_fd|].
          by apply filtered_refs_getitem_last. }
        erewrite bind_run; last first.
        { eapply features_getitem_run;
            [by apply filtered_heap_lookup_old|].
          apply getitem_elem_of; [done|]. apply Hsub. left. }
        apply features_setitem_run, filtered_heap_lookup_last. }
      rewrite filtered_heap_insert_last, setitem_fresh by done.
      rewrite IH by done. by rewrite <-(assoc_L (++)).
    + rewrite filter_cons_False
        by (unfold matches; cbn; rewrite Hmatch; intros []).
      erewrite bind_run by reflexivity. by apply IH.
Qed.

Lemma filter_modules_run h (self_l : loc) d (r r2 acc : Report) :
  h !! self_l = Some (OReport d) → stands_for h d r → wf_report r →
  r2 ⊆ r → NoDup (keys acc ++ keys r2) →
  for_each (keys r2) (λ module_fqn,
    if bool_decide (module_fqn_filter = "")
       || str_contains module_fqn_filter module_fqn then
      entry ← alloc (OFeatures []);
      _ ← report_setitem (length h) module_fqn entry;
      module_reports ← report_getitem self_l module_fqn;
      feature_names ← features_keys module_reports;
      for_each feature_names (λ feature_name,
        if bool_decide (feature_filter = "")
           || str_contains feature_filter feature_name then
          entry ← report_getitem (length h) module_fqn;
          v ← features_getitem module_reports feature_name;
          features_setitem entry feature_name v
        else mret tt)
    else mret tt) (filtered_heap h acc)
  = (Ok tt,
     filtered_heap h (acc ++ filter_spec feature_filter module_fqn_filter r2)).
Proof.
  intros Hself Hd [Hwf Hin]%wf_report_inv. revert acc.
  induction r2 as [|[m fm] r2 IH]; intros acc Hsub Hnd.
  - cbn. by rewrite app_nil_r.
  - assert ((m ∉ keys acc) ∧ NoDup (keys (acc ++ [(m, fm)]) ++ keys r2))
      as [Hm Hnd'].
    { rewrite keys_app. cbn. rewrite <-(assoc_L (++)). cbn.
      split; [|done].
      apply NoDup_app in Hnd as (_ & Hdis & _). intros Hin'.
      apply (Hdis m Hin'). left. }
    assert ((m, fm) ∈ r) as Hmr by (apply Hsub; left).
    assert (r2 ⊆ r) as Hsub' by (intros x Hx; apply Hsub; by right).
    destruct (stands_for_elem_of h d r m fm Hd Hwf Hmr) as (lm & Hget & Hlm).
    unfold filter_spec. cbn [keys fmap list_fmap fst for_each]. fold (keys r2).
    destruct (bool_decide (module_fqn_filter = "")
              || str_contains module_fqn_filter m) eqn:Hmatch.
    + rewrite filter_cons_True by (unfold matches; cbn; by rewrite Hmatch).
      erewrite bind_run; last first.
      { erewrite bind_run by reflexivity.
        erewrite bind_run; last first.
        { apply report_setitem_run, lookup_app_l_Some,
            filtered_heap_lookup_fd. }
        rewrite new_entry_heap by done.
        erewrite bind_run; last first.
        { eapply report_getitem_run;
            [by apply filtered_heap_lookup_old|done]. }
        erewrite bind_run; last first.
        { unfold features_keys. erewrite bind_run; [reflexivity|].
          by apply as_features_run, filtered_heap_lookup_old. }
        apply (filter_features_run h acc m lm fm fm []);
          [done|by eapply Hin|done|done|]. by eapply Hin. }
      rewrite app_nil_l. rewrite IH; [|done|].
      * rewrite fmap_cons. cbn [fst snd]. by rewrite <-(assoc_L (++)).
      * rewrite keys_app in Hnd' |- *. done.
    + rewrite filter_cons_False
        by (unfold matches; cbn; rewrite Hmatch; intros []).
      erewrite bind_run by reflexivity. apply IH; [done|].
      rewrite keys_app in Hnd'. cbn in Hnd'.
      rewrite <-(assoc_L (++)) in Hnd'. cbn in Hnd'.
      apply NoDup_app in Hnd' as (Ha & Hdis & Hfm).
      apply NoDup_app. split_and!; [done| |by apply NoDup_cons in Hfm as [_ ?]].
      intros x Hx Hx'. apply (Hdis x Hx). by right.
Qed.

End filter_runs.

(** The filter allocates its result after the objects that exist, writes to
    nothing else, and the dictionary it returns stands for [filter_spec]. *)
Lemma get_filtered_data_run h self (r : Report) feature_filter module_fqn_filter :
  load (generated_reports self) h = (Ok r, h) → wf_report r →
  _get_filtered_data self feature_filter module_fqn_filter h
  = (Ok (length h),
     filtered_heap h (filter_spec feature_filter module_fqn_filter r)).
Proof.
  intros [_ (d & Hself & Hd)]%load_Ok Hwf. unfold _get_filtered_data.
  erewrite bind_run by reflexivity.
  change (h ++ [OReport []]) with (filtered_heap h []).
  erewrite bind_run; last first.
  { unfold report_keys. erewrite bind_run; [reflexivity|].
    by apply as_report_run, filtered_heap_lookup_old. }
  rewrite (stands_for_keys h d r Hd).
  erewrite bind_run; last first.
  { eapply (filter_modules_run _ _ h _ d r r []); [done..|]. apply Hwf. }
  done.
Qed.

Lemma load_filtered_heap h (acc : Report) :
  load (length h) (filtered_heap h acc) = (Ok acc, filtered_heap h acc).
Proof.
  apply load_Ok. split; [done|]. eexists. split; [apply filtered_heap_lookup_fd|].
  apply Forall2_same_length_lookup_2.
  - unfold filtered_refs. rewrite length_zip, length_keys, length_seq. lia.
  - intros i [m l] [m' fm] Hi Hi'. unfold filtered_refs in Hi.
    apply lookup_zip_Some in Hi as [Hk [-> _]%lookup_seq]. cbn.
    unfold keys in Hk. rewrite list_lookup_fmap, Hi' in Hk.
    injection Hk as <-. split; [done|].
    unfold filtered_heap. rewrite lookup_app_r by lia.
    replace (S (length h + i) - length h) with (S i) by lia. simpl.
    by rewrite !list_lookup_fmap, Hi'.
Qed.

(** Objects that exist before a call are not touched by it. *)
Lemma load_preserved h ext l (r : Report) :
  load l h = (Ok r, h) → load l (h ++ ext) = (Ok r, h ++ ext).
Proof.
  intros [_ (d & Hl & Hd)]%load_Ok. apply load_Ok. split; [done|].
  exists d. split; [by apply lookup_app_l_Some|by apply stands_for_extend].
Qed.

End StoreFacts.

(** Over the store the table view computes what the functional reading
    computes, and leaves the heap extended by the filtered dictionaries. *)
Lemma generate_table_view_run (tabulate : Table → string) (h : Store.heap)
    (self : Store.ModelReportVisualizer) (r : Report)
    feature_filter module_fqn_filter :
  Store.load (Store.generated_reports self) h = (Ok r, h) → wf_report r →
  Store.generate_table_view tabulate self feature_filter module_fqn_filter h
  = (generate_table_view tabulate {| generated_reports := r |}
       feature_filter module_fqn_filter,
     Store.filtered_heap h (filter_spec feature_filter module_fqn_filter r)).
Proof.
  intros Hload Hwf. unfold Store.generate_table_view.
  erewrite StoreFacts.bind_run by by apply StoreFacts.get_filtered_data_run.
  erewrite StoreFacts.bind_run by apply StoreFacts.load_filtered_heap.
  unfold Store.lift, generate_table_view.
  by rewrite get_filtered_data_spec.
Qed.

(** With no feature of either class, the tables hold their header rows (and
    one bare row per module) and the string is the no-data message. *)
Lemma table_view_no_features (tabulate : Table → string)
    (self : ModelReportVisualizer) (feature_filter module_fqn_filter : string)
    fd st :
  _get_filtered_data self feature_filter module_fqn_filter = Ok fd →
  scan_features fd = Ok st →
  tensor_features st = ∅ →
  channel_features st = ∅ →
  ∃ bundle,
    generate_table_view tabulate self feature_filter module_fqn_filter
    = Ok (bundle, NO_DATA).
Proof.
  intros Hfd Hst Htf Hcf.
  pose proof (scan_no_channel_features fd st Hst Hcf) as Hnc.
  eexists. apply generate_table_view_Ok.
  exists fd, st,
    ([PyStr "idx"; PyStr "layer_fqn"]
       :: ((λ im : nat * string, [PyInt (im.1 + 1); PyStr im.2])
             <$> enumerate (keys fd))),
    [[PyStr "idx"; PyStr "layer_fqn"; PyStr "channel"]], 1.
  rewrite Htf, Hcf, Hnc, (proj2 (sorted_nil ∅)) by done.
  split_and!; [done..| | |done|done].
  - apply build_tensor_table_Ok. eexists; split; [done|].
    apply Forall2_fmap_r, Forall_Forall2_diag, Forall_forall. by intros [i m] _.
  - apply build_channel_table_Ok. exists []. rewrite Nat.mul_0_r.
    split_and!; [done..|constructor].
Qed.


(** When no (module, feature) pair passes both filters nothing is scanned. *)
Lemma feature_values_filter_spec_nil feature_filter module_fqn_filter
    (r : Report) :
  Forall (λ kv : string * FeatureMap,
            matches module_fqn_filter kv.1 = false
            ∨ Forall (λ f, matches feature_filter f = false) (keys kv.2)) r →
  feature_values (filter_spec feature_filter module_fqn_filter r) = [].
Proof.
  intros Hnone. apply elem_of_nil_inv. intros [f v].
  rewrite elem_of_feature_values.
  intros (m & fm' & (fm & Hm & Hmod & ->)%elem_of_filter_spec
            & [Hfeat Hf]%list_elem_of_filter).
  rewrite Forall_forall in Hnone.
  destruct (Hnone (m, fm) Hm) as [Hno|Hno]; cbn in Hno.
  - by rewrite Hno in Hmod.
  - rewrite Forall_forall in Hno. cbn in Hfeat. rewrite (Hno f) in Hfeat; [done|].
    apply list_elem_of_fmap. by exists (f, v).
Qed.

(** ** The scenarios of the specification, evaluated *)

Example scenario7_channel_table (tabulate : Table → string) :
  ∃ table_str,
    generate_table_view tabulate scenario7 "" ""
    = Ok ([(TABLE_TENSOR_KEY,
            [[PyStr "idx"; PyStr "layer_fqn"]; [PyInt 1; PyStr "layerA"]]);
           (TABLE_CHANNEL_KEY,
            [[PyStr "idx"; PyStr "layer_fqn"; PyStr "channel";
              PyStr "per_channel_min"];
             [PyInt 1; PyStr "layerA"; PyInt 0; PyFloat (1#1)];
             [PyInt 2; PyStr "layerA"; PyInt 1; PyFloat (2#1)];
             [PyInt 3; PyStr "layerA"; PyInt 2; PyFloat (3#1)]])],
          table_str).
Proof. eexists. vm_compute. reflexivity. Qed.

Example scenario8_feature_filter (tabulate : Table → string) :
  ∃ table_str,
    generate_table_view tabulate scenario6 "max" ""
    = Ok ([(TABLE_TENSOR_KEY,
            [[PyStr "idx"; PyStr "layer_fqn"; PyStr "max"];
             [PyInt 1; PyStr "layer1"; PyFloat (5#1)];
             [PyInt 2; PyStr "layer2"; PyFloat (7#1)]]);
           (TABLE_CHANNEL_KEY,
            [[PyStr "idx"; PyStr "layer_fqn"; PyStr "channel"]])],
          table_str).
Proof. eexists. vm_compute. reflexivity. Qed.

(** * The claims *)

(** C1. For the report [{"layer1": {"max": 5.0, "min": 1.0},
    "layer2": {"max": 7.0}}] and empty filters, [generate_table_view] returns
    the tensor table [[idx, layer_fqn, max, min], [1, layer1, 5.0, 1.0],
    [2, layer2, 7.0, "Not Applicable"]], a channel table that is the header
    row [[idx, layer_fqn, channel]] alone, and a string that starts with
    "Tensor Level Information" and is the tensor section only: the channel
    heading and table are not appended, so the string contains
    "Channel Level Information" only if the tabulated tensor table does. *)
Theorem C1_scenario6_table_view (tabulate : Table → string) :
  ∃ table_str,
    generate_table_view tabulate scenario6 "" ""
    = Ok ([(TABLE_TENSOR_KEY, scenario6_tensor_table);
           (TABLE_CHANNEL_KEY, scenario6_channel_table)], table_str)
    ∧ table_str = TENSOR_HEADING +:+ tabulate scenario6_tensor_table
    ∧ String.prefix "Tensor Level Information" table_str = true
    ∧ str_contains "Channel Level Information" table_str
      = str_contains "Channel Level Information"
          (tabulate scenario6_tensor_table).
Proof.
  exists (TENSOR_HEADING +:+ tabulate scenario6_tensor_table).
  split_and!; [by vm_compute|done|by vm_compute|by vm_compute].
Qed.

(** C2. In the bundle returned by [generate_table_view] the tensor table has
    one header row and one row per filtered module, whatever the features;
    the channel table has one header row and (filtered modules) x
    [num_channels] rows; and [num_channels] is 0 when no value of the filtered
    data is iterable. *)
Theorem C2_row_counts (tabulate : Table → string) (self : ModelReportVisualizer)
    (feature_filter module_fqn_filter : string) bundle table_str :
  generate_table_view tabulate self feature_filter module_fqn_filter
  = Ok (bundle, table_str) →
  ∃ fd st tt ct,
    _get_filtered_data self feature_filter module_fqn_filter = Ok fd
    ∧ scan_features fd = Ok st
    ∧ getitem bundle TABLE_TENSOR_KEY = Ok tt
    ∧ getitem bundle TABLE_CHANNEL_KEY = Ok ct
    ∧ length tt = 1 + length fd
    ∧ length ct = 1 + length fd * num_channels st
    ∧ ((∀ m f v, holds fd m f v → py_iterable v = false) →
       num_channels st = 0).
Proof.
  intros (fd & st & tt & ct & cnt & Hfd & Hst & Htt & Hct & -> & _)
    %generate_table_view_Ok.
  exists fd, st, tt, ct. split_and!; [done..| | |by apply scan_no_iterable].
  - apply build_tensor_table_Ok in Htt as (rows & -> & Hrows).
    apply Forall2_length in Hrows.
    rewrite length_enumerate, length_keys in Hrows. cbn. by rewrite Hrows.
  - apply build_channel_table_Ok in Hct as (rows & -> & _ & Hrows).
    apply Forall2_length in Hrows.
    rewrite length_zip, length_seq, length_channel_slots in Hrows.
    cbn. lia.
Qed.

Lemma C2_witness :
  (∃ (bundle : dict Table) (fd : Report) st (tt ct : Table),
     _get_filtered_data two_lengths "" "" = Ok fd
     ∧ scan_features fd = Ok st
     ∧ getitem bundle TABLE_TENSOR_KEY = Ok tt
     ∧ getitem bundle TABLE_CHANNEL_KEY = Ok ct
     ∧ length tt = 1 + length fd
     ∧ length ct = 1 + length fd * num_channels st
     ∧ ((∀ m f v, holds fd m f v → py_iterable v = false) →
        num_channels st = 0))
  ∧ (∃ st, scan_features (generated_reports scenario6) = Ok st
           ∧ num_channels st = 0).
Proof.
  split.
  - eexists. eapply (C2_row_counts (λ _, "") two_lengths "" "").
    vm_compute. reflexivity.
  - destruct (C2_row_counts (λ _, "") scenario6 "" ""
                [(TABLE_TENSOR_KEY, scenario6_tensor_table);
                 (TABLE_CHANNEL_KEY, scenario6_channel_table)]
                TENSOR_HEADING eq_refl)
      as (fd & st & tt & ct & Hfd & Hst & _ & _ & _ & _ & Hzero).
    vm_compute in Hfd. injection Hfd as <-.
    exists st. split; [exact Hst|]. apply Hzero.
    intros m f v (fm & Hm & Hf).
    repeat (apply elem_of_cons in Hm as [[= -> ->]|Hm]);
      [..|by apply elem_of_nil in Hm];
      repeat (apply elem_of_cons in Hf as [[= -> ->]|Hf]);
      try reflexivity; by apply elem_of_nil in Hf.
Defined.

(** C3, as the code has it: [get_all_unique_feature_names(plottable=False)]
    returns the union of the feature names of all modules; with
    [plottable=True] it returns exactly the names whose value has type
    [torch.Tensor] (0-dimensional or not) in at least one module: a plain
    scalar does not count, and neither does a plain sequence of numbers. *)
Theorem C3_feature_names (self : ModelReportVisualizer) :
  (∃ names, get_all_unique_feature_names self false = Ok names
     ∧ ∀ name, name ∈ names ↔
         ∃ m fm, getitem (generated_reports self) m = Ok fm ∧ name ∈ keys fm)
  ∧ (∃ names, get_all_unique_feature_names self true = Ok names
     ∧ ∀ name, name ∈ names ↔
         ∃ m fm t, getitem (generated_reports self) m = Ok fm
                   ∧ getitem fm name = Ok (PyTensor t)).
Proof.
  split.
  - destruct (feature_names_outer false (generated_reports self)
                (keys (generated_reports self)) ∅) as (names & Hn & Hchar);
      [done|].
    exists names. split; [done|]. intros name. rewrite Hchar. split.
    + intros [[]%not_elem_of_empty|(m & fm & _ & ? & ? & _)]. eauto.
    + intros (m & fm & Hm & Hf). right. exists m, fm.
      split_and!; [by eapply getitem_Ok_keys|done..].
  - destruct (feature_names_outer true (generated_reports self)
                (keys (generated_reports self)) ∅) as (names & Hn & Hchar);
      [done|].
    exists names. split; [done|]. intros name. rewrite Hchar. split.
    + intros [[]%not_elem_of_empty|(m & fm & _ & ? & _ & t & ?)]. eauto.
    + intros (m & fm & t & Hm & Hf). right. exists m, fm.
      split_and!; [by eapply getitem_Ok_keys|done|by eapply getitem_Ok_keys|].
      by exists t.
Qed.

(** C3 as stated fails: in scenario 7 the module "layerA" holds the feature
    "per_channel_min" as a plain list of three numbers, a sequence numeric
    container and no plain scalar, and [plottable=True] leaves the name out:
    the call returns the empty set, while [plottable=False] lists the name. *)
Lemma C3_counterexample :
  getitem (generated_reports scenario7) "layerA"
  = Ok [("per_channel_min",
         PyList [PyFloat (1#1); PyFloat (2#1); PyFloat (3#1)])]
  ∧ py_iterable (PyList [PyFloat (1#1); PyFloat (2#1); PyFloat (3#1)]) = true
  ∧ get_all_unique_feature_names scenario7 false = Ok {["per_channel_min"]}
  ∧ get_all_unique_feature_names scenario7 true = Ok ∅
  ∧ ∀ names, get_all_unique_feature_names scenario7 true = Ok names →
             "per_channel_min" ∉ names.
Proof.
  split_and!; [reflexivity|reflexivity|by vm_compute|by vm_compute|].
  intros names Hnames.
  assert (get_all_unique_feature_names scenario7 true = Ok ∅) as Hempty
    by (by vm_compute).
  rewrite Hempty in Hnames. injection Hnames as <-. apply not_elem_of_empty.
Qed.

(** C4, as the code has it: for every input [generate_plot_view] and
    [generate_histogram_view] return [None] without raising; they never
    return a table. *)
Theorem C4_stub_views_return_None (self : ModelReportVisualizer)
    (feature module_fqn_prefix_filter : string) :
  generate_plot_view self feature module_fqn_prefix_filter = Ok None
  ∧ generate_histogram_view self feature module_fqn_prefix_filter = Ok None.
Proof. apply stub_views_return_None. Qed.

(** C4 as stated fails: on the report of scenario 6 and the feature "max"
    neither view raises [NotImplementedError]; both calls return. *)
Lemma C4_counterexample :
  generate_plot_view scenario6 "max" "" ≠ Raise NotImplementedError
  ∧ generate_histogram_view scenario6 "max" "" ≠ Raise NotImplementedError
  ∧ is_ok (generate_plot_view scenario6 "max" "") = true
  ∧ is_ok (generate_histogram_view scenario6 "max" "") = true.
Proof. by split_and!. Qed.

(** C5. On a report whose two levels are dictionaries, filtering with both
    filters empty returns the report itself, same content and same module
    order; and for any filters a module that matches the module filter and
    none of whose feature names match the feature filter is kept, with an
    empty feature map. *)
Theorem C5_filter_narrows (self : ModelReportVisualizer)
    (feature_filter module_fqn_filter : string) :
  wf_report (generated_reports self) →
  _get_filtered_data self "" "" = Ok (generated_reports self)
  ∧ ∀ m fm,
      getitem (generated_reports self) m = Ok fm →
      matches module_fqn_filter m = true →
      Forall (λ f, matches feature_filter f = false) (keys fm) →
      ∃ fd, _get_filtered_data self feature_filter module_fqn_filter = Ok fd
            ∧ getitem fd m = Ok [].
Proof.
  intros Hwf. split.
  - by rewrite get_filtered_data_spec, filter_spec_empty.
  - intros m fm Hm%getitem_Ok_elem_of Hmatch Hnone.
    rewrite get_filtered_data_spec by done.
    eexists; split; [done|].
    apply getitem_elem_of; [by apply wf_filter_spec|].
    apply elem_of_filter_spec. exists fm. split_and!; [done|by rewrite Hmatch|].
    symmetry. apply filter_none. apply Forall_forall. intros [f v] Hf.
    cbn. rewrite Forall_forall in Hnone. rewrite (Hnone f); [by intros []|].
    apply list_elem_of_fmap. by exists (f, v).
Qed.

Lemma C5_witness :
  _get_filtered_data scenario6 "" "" = Ok (generated_reports scenario6)
  ∧ ∃ fd, _get_filtered_data scenario6 "mean" "layer2" = Ok fd
          ∧ getitem fd "layer2" = Ok [].
Proof.
  assert (wf_report (generated_reports scenario6)) as Hwf
    by (apply (bool_decide_unpack _); vm_compute; exact I).
  destruct (C5_filter_narrows scenario6 "mean" "layer2" Hwf) as [Hid Hkeep].
  split; [exact Hid|].
  apply (Hkeep "layer2" [("max", PyFloat (7#1))]).
  - reflexivity.
  - reflexivity.
  - apply (bool_decide_unpack _). vm_compute. exact I.
Defined.

(** C6. If after filtering and classification both the tensor-feature set and
    the channel-feature set are empty, [generate_table_view] returns normally
    and its string is exactly "No data points to generate table with.". *)
Theorem C6_no_data_points (tabulate : Table → string)
    (self : ModelReportVisualizer) (feature_filter module_fqn_filter : string)
    fd st :
  _get_filtered_data self feature_filter module_fqn_filter = Ok fd →
  scan_features fd = Ok st →
  tensor_features st = ∅ →
  channel_features st = ∅ →
  ∃ bundle,
    generate_table_view tabulate self feature_filter module_fqn_filter
    = Ok (bundle, "No data points to generate table with.").
Proof. apply table_view_no_features. Qed.

Lemma C6_witness :
  ∃ bundle,
    generate_table_view (λ _, "") scenario6 "variance" ""
    = Ok (bundle, "No data points to generate table with.").
Proof.
  apply (C6_no_data_points (λ _, "") scenario6 "variance" ""
           [("layer1", []); ("layer2", [])] scan_init).
  - vm_compute. reflexivity.
  - vm_compute. reflexivity.
  - reflexivity.
  - reflexivity.
Defined.






(** C9. Two successive calls of [generate_table_view] with the same filters
    on the same visualizer return the same result (bundle and string), the
    one the functional reading computes, and neither call modifies an object
    that existed before it: each call only appends fresh dictionaries to the
    heap, so the report stored in [generated_reports] reads the same before,
    between and after the calls.  The other query methods write nothing at
    all. *)
Theorem C9_table_view_idempotent (tabulate : Table → string)
    (self : Store.ModelReportVisualizer)
    (feature_filter module_fqn_filter : string)
    (h : Store.heap) (r : Report) :
  Store.load (Store.generated_reports self) h = (Ok r, h) →
  wf_report r →
  ∃ out h1 h2,
    Store.generate_table_view tabulate self feature_filter module_fqn_filter h
    = (out, h1)
    ∧ Store.generate_table_view tabulate self feature_filter module_fqn_filter
        h1 = (out, h2)
    ∧ out = generate_table_view tabulate {| generated_reports := r |}
              feature_filter module_fqn_filter
    ∧ h `prefix_of` h1 ∧ h1 `prefix_of` h2
    ∧ Store.load (Store.generated_reports self) h1 = (Ok r, h1)
    ∧ Store.load (Store.generated_reports self) h2 = (Ok r, h2)
    ∧ Store.read_only (Store.get_all_unique_module_fqns self)
    ∧ (∀ plottable,
         Store.read_only (Store.get_all_unique_feature_names self plottable))
    ∧ (∀ feature flt,
         Store.read_only (Store.generate_plot_view self feature flt)
         ∧ Store.read_only (Store.generate_histogram_view self feature flt)).
Proof.
  intros Hload Hwf.
  set (fs := filter_spec feature_filter module_fqn_filter r).
  assert (Store.load (Store.generated_reports self) (Store.filtered_heap h fs)
          = (Ok r, Store.filtered_heap h fs)) as Hload1
    by by apply StoreFacts.load_preserved.
  assert (Store.load (Store.generated_reports self)
            (Store.filtered_heap (Store.filtered_heap h fs) fs)
          = (Ok r, Store.filtered_heap (Store.filtered_heap h fs) fs))
    as Hload2 by by apply StoreFacts.load_preserved.
  eexists _, _, _. split_and!.
  - by apply generate_table_view_run.
  - by apply generate_table_view_run.
  - done.
  - by eexists.
  - by eexists.
  - done.
  - done.
  - apply StoreFacts.read_only_module_fqns.
  - apply StoreFacts.read_only_feature_names.
  - done.
Qed.

Lemma C9_witness :
  ∃ out h1 h2,
    Store.generate_table_view (λ _, "") Store.scenario6_self "" ""
      Store.scenario6_heap = (out, h1)
    ∧ Store.generate_table_view (λ _, "") Store.scenario6_self "" "" h1
      = (out, h2)
    ∧ out = generate_table_view (λ _, "") scenario6 "" ""
    ∧ Store.scenario6_heap `prefix_of` h1 ∧ h1 `prefix_of` h2
    ∧ Store.load (Store.generated_reports Store.scenario6_self) h1
      = (Ok (generated_reports scenario6), h1)
    ∧ Store.load (Store.generated_reports Store.scenario6_self) h2
      = (Ok (generated_reports scenario6), h2)
    ∧ Store.read_only (Store.get_all_unique_module_fqns Store.scenario6_self)
    ∧ (∀ plottable,
         Store.read_only
           (Store.get_all_unique_feature_names Store.scenario6_self plottable))
    ∧ (∀ feature flt,
         Store.read_only
           (Store.generate_plot_view Store.scenario6_self feature flt)
         ∧ Store.read_only
             (Store.generate_histogram_view Store.scenario6_self feature flt)).
Proof.
  apply (C9_table_view_idempotent (λ _, "") Store.scenario6_self "" ""
           Store.scenario6_heap (generated_reports scenario6)).
  - vm_compute. reflexivity.
  - apply (bool_decide_unpack _). vm_compute. exact I.
Defined.

(** C10. The bundle returned by [generate_table_view] has exactly the keys
    "tensor_level_info" and "channel_level_info"; each table is non-empty and
    starts with its header row: "idx", "layer_fqn" (and "channel" for the
    channel table) followed by the feature names of its class in sorted
    order, each once.  This holds whatever the formatted string is; in
    particular when nothing passes the filters (an empty report included) a
    bundle is returned, with its header rows, next to the "no data points"
    message. *)
Theorem C10_header_rows (tabulate : Table → string)
    (self : ModelReportVisualizer) (feature_filter module_fqn_filter : string) :
  (∀ bundle table_str,
     generate_table_view tabulate self feature_filter module_fqn_filter
     = Ok (bundle, table_str) →
     ∃ fd st tfl cfl tensor_rows channel_rows,
       _get_filtered_data self feature_filter module_fqn_filter = Ok fd
       ∧ scan_features fd = Ok st
       ∧ bundle =
           [("tensor_level_info",
             ([PyStr "idx"; PyStr "layer_fqn"] ++ (PyStr <$> tfl))
               :: tensor_rows);
            ("channel_level_info",
             ([PyStr "idx"; PyStr "layer_fqn"; PyStr "channel"]
                ++ (PyStr <$> cfl)) :: channel_rows)]
       ∧ Sorted String.le tfl ∧ NoDup tfl
       ∧ (∀ f, f ∈ tfl ↔ f ∈ tensor_features st)
       ∧ Sorted String.le cfl ∧ NoDup cfl
       ∧ (∀ f, f ∈ cfl ↔ f ∈ channel_features st))
  ∧ (wf_report (generated_reports self) →
     Forall (λ kv : string * FeatureMap,
               matches module_fqn_filter kv.1 = false
               ∨ Forall (λ f, matches feature_filter f = false) (keys kv.2))
       (generated_reports self) →
     ∃ bundle,
       generate_table_view tabulate self feature_filter module_fqn_filter
       = Ok (bundle, NO_DATA)).
Proof.
  split.
  - intros bundle table_str
      (fd & st & tt & ct & cnt & Hfd & Hst & Htt & Hct & -> & _)
      %generate_table_view_Ok.
    apply build_tensor_table_Ok in Htt as (tensor_rows & -> & _).
    apply build_channel_table_Ok in Hct as (channel_rows & -> & _).
    exists fd, st, (sorted (tensor_features st)),
      (sorted (channel_features st)), tensor_rows, channel_rows.
    split_and!; [done..|apply sorted_Sorted|apply sorted_NoDup
                |apply sorted_elem_of|apply sorted_Sorted|apply sorted_NoDup
                |apply sorted_elem_of].
  - intros Hwf Hnone.
    eapply table_view_no_features.
    + by apply get_filtered_data_spec.
    + rewrite scan_features_fold by by apply wf_filter_spec.
      by rewrite feature_values_filter_spec_nil.
    + done.
    + done.
Qed.

Lemma C10_witness :
  (∃ fd st tfl cfl tensor_rows channel_rows,
    _get_filtered_data scenario6 "variance" "" = Ok fd
    ∧ scan_features fd = Ok st
    ∧ [("tensor_level_info",
        [[PyStr "idx"; PyStr "layer_fqn"];
         [PyInt 1; PyStr "layer1"]; [PyInt 2; PyStr "layer2"]]);
       ("channel_level_info",
        [[PyStr "idx"; PyStr "layer_fqn"; PyStr "channel"]])] =
        [("tensor_level_info",
          ([PyStr "idx"; PyStr "layer_fqn"] ++ (PyStr <$> tfl)) :: tensor_rows);
         ("channel_level_info",
          ([PyStr "idx"; PyStr "layer_fqn"; PyStr "channel"] ++ (PyStr <$> cfl))
            :: channel_rows)]
    ∧ Sorted String.le tfl ∧ NoDup tfl
    ∧ (∀ f, f ∈ tfl ↔ f ∈ tensor_features st)
    ∧ Sorted String.le cfl ∧ NoDup cfl
    ∧ (∀ f, f ∈ cfl ↔ f ∈ channel_features st))
  ∧ (∃ bundle,
       generate_table_view (λ _, "") scenario6 "variance" ""
       = Ok (bundle, NO_DATA)).
Proof.
  destruct (C10_header_rows (λ _, "") scenario6 "variance" "")
    as [Hheaders Hreturns].
  split.
  - apply (Hheaders _ NO_DATA). vm_compute. reflexivity.
  - apply Hreturns.
    + apply (bool_decide_unpack _). vm_compute. exact I.
    + apply (bool_decide_unpack _). vm_compute. exact I.
Defined.

(** * Further properties *)

(** ** Substring tests *)

Lemma prefix_occurs (s1 s2 : string) :
  String.prefix s1 s2 = true ↔ ∃ suf, s2 = s1 +:+ suf.
Proof.
  revert s2. induction s1 as [|a s1 IH]; intros [|b s2]; cbn.
  - split; [by exists ""|done].
  - split; [by exists (String b s2)|done].
  - split; [done|]. by intros [suf [=]].
  - destruct (Ascii.ascii_dec a b) as [<-|Hab].
    + rewrite IH. split; intros [suf Hs]; exists suf.
      * by rewrite Hs.
      * by injection Hs.
    + split; [done|]. intros [suf [= ? _]]. done.
Qed.

Lemma str_contains_occurs (needle hay : string) :
  str_contains needle hay = true ↔ occurs_in needle hay.
Proof.
  unfold occurs_in. induction hay as [|b hay IH]; cbn [str_contains].
  - rewrite orb_false_r, prefix_occurs. split.
    + intros [suf Hs]. by exists "", suf.
    + intros ([|? ?] & suf & Hs); [by exists suf|done].
  - rewrite orb_true_iff, prefix_occurs, IH. split.
    + intros [[suf Hs]|(pre & suf & ->)].
      * by exists "", suf.
      * by exists (String b pre), suf.
    + intros ([|c pre] & suf & Hs).
      * left. by exists suf.
      * right. injection Hs as -> ->. by exists pre, suf.
Qed.

Lemma matches_occurs (flt name : string) :
  matches flt name = true ↔ occurs_in flt name.
Proof.
  unfold matches. rewrite orb_true_iff, bool_decide_eq_true, str_contains_occurs.
  split; [|by right]. intros [->|?]; [|done]. by exists "", name.
Qed.

(** ** The filter, continued *)

Lemma filter_spec_cons feature_filter module_fqn_filter m fm (r : Report) :
  filter_spec feature_filter module_fqn_filter ((m, fm) :: r)
  = if matches module_fqn_filter m then
      (m, filter (λ fv : string * PyVal, matches feature_filter fv.1) fm)
        :: filter_spec feature_filter module_fqn_filter r
    else filter_spec feature_filter module_fqn_filter r.
Proof.
  unfold filter_spec. destruct (matches module_fqn_filter m) eqn:Hm.
  - by rewrite filter_cons_True by (cbn; by rewrite Hm).
  - by rewrite filter_cons_False by (cbn; rewrite Hm; intros []).
Qed.

Lemma filter_spec_idem feature_filter module_fqn_filter (r : Report) :
  filter_spec feature_filter module_fqn_filter
    (filter_spec feature_filter module_fqn_filter r)
  = filter_spec feature_filter module_fqn_filter r.
Proof.
  induction r as [|[m fm] r IH]; [done|]. rewrite filter_spec_cons.
  destruct (matches module_fqn_filter m) eqn:Hm; [|done].
  rewrite filter_spec_cons, Hm, IH. do 2 f_equal.
  rewrite list_filter_filter. apply list_filter_iff. tauto.
Qed.

Lemma filter_spec_comm ff1 mf1 ff2 mf2 (r : Report) :
  filter_spec ff2 mf2 (filter_spec ff1 mf1 r)
  = filter_spec ff1 mf1 (filter_spec ff2 mf2 r).
Proof.
  induction r as [|[m fm] r IH]; [done|]. rewrite !filter_spec_cons.
  destruct (matches mf1 m) eqn:Hm1, (matches mf2 m) eqn:Hm2;
    rewrite ?filter_spec_cons, ?Hm1, ?Hm2, IH; [|done..].
  do 2 f_equal. rewrite !list_filter_filter. apply list_filter_iff. tauto.
Qed.

Lemma holds_filter_spec feature_filter module_fqn_filter (r : Report) m f v :
  wf_dict r →
  holds (filter_spec feature_filter module_fqn_filter r) m f v
  ↔ holds r m f v ∧ matches module_fqn_filter m = true
    ∧ matches feature_filter f = true.
Proof.
  intros Hwf. unfold holds. split.
  - intros (fm' & (fm & Hm & Hmod & ->)%elem_of_filter_spec
              & [Hfeat Hf]%list_elem_of_filter).
    cbn in Hfeat. split_and!; [by exists fm|by apply Is_true_true..].
  - intros ((fm & Hm & Hf) & Hmod & Hfeat). eexists. split.
    + apply elem_of_filter_spec. exists fm.
      split_and!; [done|by apply Is_true_true|done].
    + apply list_elem_of_filter. split; [by apply Is_true_true|done].
Qed.

(** X1. The module filter is a containment test, not a prefix test: the
    filtered data keeps exactly the modules whose name contains the filter
    anywhere, in the order of the report, each once. *)
Theorem X1_module_filter_is_containment (self : ModelReportVisualizer)
    (feature_filter module_fqn_filter : string) :
  wf_report (generated_reports self) →
  ∃ fd,
    _get_filtered_data self feature_filter module_fqn_filter = Ok fd
    ∧ keys fd `sublist_of` keys (generated_reports self)
    ∧ NoDup (keys fd)
    ∧ ∀ m, m ∈ keys fd ↔
           m ∈ keys (generated_reports self) ∧ occurs_in module_fqn_filter m.
Proof.
  intros Hwf. eexists. split; [by apply get_filtered_data_spec|].
  rewrite keys_filter_spec. split_and!.
  - apply fmap_sublist, sublist_filter.
  - by apply (wf_dict_filter _ _), Hwf.
  - intros m. unfold keys. rewrite !list_elem_of_fmap. split.
    + intros ([m' fm] & -> & [Hm Hin]%list_elem_of_filter). cbn in *. split.
      * by exists (m', fm).
      * by apply matches_occurs, Is_true_true.
    + intros [([m' fm] & -> & Hin) Hm%matches_occurs]. exists (m', fm).
      split; [done|]. apply list_elem_of_filter. split; [|done].
      cbn. by apply Is_true_true.
Qed.

Lemma X1_witness :
  ∃ fd,
    _get_filtered_data nested_names "" "block1" = Ok fd
    ∧ "features.block1.conv" ∈ keys fd
    ∧ "classifier" ∉ keys fd.
Proof.
  assert (wf_report (generated_reports nested_names)) as Hwf
    by (apply (bool_decide_unpack _); vm_compute; exact I).
  destruct (X1_module_filter_is_containment nested_names "" "block1" Hwf)
    as (fd & Hfd & _ & _ & Hmem).
  exists fd. split_and!; [exact Hfd| |].
  - apply Hmem. split.
    + apply (bool_decide_unpack _). vm_compute. exact I.
    + exists "features.", ".conv". reflexivity.
  - intros [_ Hocc%matches_occurs]%Hmem. vm_compute in Hocc. discriminate Hocc.
Defined.

(** X2. The filter is a pure narrowing: the filtered data holds a value for
    (module, feature) exactly when the report holds that same value and both
    names contain their filter; and the features kept in a module keep their
    order. *)
Theorem X2_filter_keeps_values (self : ModelReportVisualizer)
    (feature_filter module_fqn_filter : string) :
  wf_report (generated_reports self) →
  ∃ fd,
    _get_filtered_data self feature_filter module_fqn_filter = Ok fd
    ∧ (∀ m f v, holds fd m f v ↔
         holds (generated_reports self) m f v
         ∧ occurs_in module_fqn_filter m ∧ occurs_in feature_filter f)
    ∧ (∀ m fm', (m, fm') ∈ fd →
         ∃ fm, (m, fm) ∈ generated_reports self ∧ fm' `sublist_of` fm).
Proof.
  intros Hwf. eexists. split; [by apply get_filtered_data_spec|]. split.
  - intros m f v. rewrite holds_filter_spec by apply Hwf.
    by rewrite !matches_occurs.
  - intros m fm' (fm & Hm & _ & ->)%elem_of_filter_spec.
    exists fm. split; [done|]. apply sublist_filter.
Qed.

Lemma X2_witness :
  ∃ fd,
    _get_filtered_data nested_names "max" "block1" = Ok fd
    ∧ holds fd "block1" "max" (PyFloat (7#1))
    ∧ ¬ holds fd "features.block1.conv" "min" (PyFloat (1#1)).
Proof.
  assert (wf_report (generated_reports nested_names)) as Hwf
    by (apply (bool_decide_unpack _); vm_compute; exact I).
  destruct (X2_filter_keeps_values nested_names "max" "block1" Hwf)
    as (fd & Hfd & Hholds & _).
  exists fd. split_and!; [exact Hfd| |].
  - apply Hholds. split_and!.
    + eexists. split; [right; left|left].
    + by exists "", "".
    + by exists "", "".
  - intros (_ & _ & Hocc%matches_occurs)%Hholds.
    vm_compute in Hocc. discriminate Hocc.
Defined.

(** X3. Filtering composes: a visualizer built on filtered data and filtered
    again with the same filters returns that data unchanged, and two filters
    applied one after the other give the same data in either order. *)
Theorem X3_filter_composes (self : ModelReportVisualizer)
    (ff1 mf1 ff2 mf2 : string) :
  wf_report (generated_reports self) →
  ∃ fd1 fd2,
    _get_filtered_data self ff1 mf1 = Ok fd1
    ∧ _get_filtered_data self ff2 mf2 = Ok fd2
    ∧ wf_report fd1
    ∧ _get_filtered_data {| generated_reports := fd1 |} ff1 mf1 = Ok fd1
    ∧ _get_filtered_data {| generated_reports := fd1 |} ff2 mf2
      = _get_filtered_data {| generated_reports := fd2 |} ff1 mf1.
Proof.
  intros Hwf.
  pose proof (wf_filter_spec ff1 mf1 _ Hwf) as Hwf1.
  pose proof (wf_filter_spec ff2 mf2 _ Hwf) as Hwf2.
  eexists _, _.
  split_and!; [by apply get_filtered_data_spec..|done| |].
  - rewrite get_filtered_data_spec by done. cbn [generated_reports].
    by rewrite filter_spec_idem.
  - rewrite !get_filtered_data_spec by done. cbn [generated_reports].
    by rewrite filter_spec_comm.
Qed.

Lemma X3_witness :
  ∃ fd1 fd2,
    _get_filtered_data nested_names "max" "" = Ok fd1
    ∧ _get_filtered_data nested_names "" "block1" = Ok fd2
    ∧ wf_report fd1
    ∧ _get_filtered_data {| generated_reports := fd1 |} "max" "" = Ok fd1
    ∧ _get_filtered_data {| generated_reports := fd1 |} "" "block1"
      = _get_filtered_data {| generated_reports := fd2 |} "max" "".
Proof.
  apply (X3_filter_composes nested_names "max" "" "" "block1").
  apply (bool_decide_unpack _). vm_compute. exact I.
Defined.

(** ** Feature names, continued *)

Lemma holds_getitem (fd : Report) m f v :
  wf_report fd →
  holds fd m f v ↔ ∃ fm, getitem fd m = Ok fm ∧ getitem fm f = Ok v.
Proof.
  intros [Hwf Hin]%wf_report_inv. unfold holds. split.
  - intros (fm & Hm & Hf). exists fm. split; apply getitem_elem_of; eauto.
  - intros (fm & Hm & Hf). exists fm. eauto using getitem_Ok_elem_of.
Qed.

(** X4. The plottable feature names are among all the feature names, and
    both queries return (they never raise). *)
Theorem X4_plottable_names_subset (self : ModelReportVisualizer) :
  ∃ all_names plottable_names,
    get_all_unique_feature_names self false = Ok all_names
    ∧ get_all_unique_feature_names self true = Ok plottable_names
    ∧ plottable_names ⊆ all_names.
Proof.
  destruct (feature_names_outer false (generated_reports self)
              (keys (generated_reports self)) ∅) as (all_names & Ha & Hall);
    [done|].
  destruct (feature_names_outer true (generated_reports self)
              (keys (generated_reports self)) ∅) as (plot & Hp & Hplot);
    [done|].
  exists all_names, plot. split_and!; [done..|].
  intros name. rewrite Hall, Hplot.
  intros [?|(m & fm & ? & ? & ? & _)]; [by left|right].
  by exists m, fm.
Qed.

(** X5. The two header name sets of the table view together are the feature
    names of the filtered data, as [get_all_unique_feature_names] lists them
    on a visualizer built on that data; a name is in both sets exactly when
    it is a scalar in one module and a sequence in another. *)
Theorem X5_classes_cover_feature_names (self : ModelReportVisualizer)
    (feature_filter module_fqn_filter : string) :
  wf_report (generated_reports self) →
  ∃ fd st names,
    _get_filtered_data self feature_filter module_fqn_filter = Ok fd
    ∧ scan_features fd = Ok st
    ∧ get_all_unique_feature_names {| generated_reports := fd |} false
      = Ok names
    ∧ tensor_features st ∪ channel_features st = names
    ∧ ∀ f, f ∈ tensor_features st ∩ channel_features st ↔
           ∃ m v m' v', holds fd m f v ∧ py_iterable v = false
                        ∧ holds fd m' f v' ∧ py_iterable v' = true.
Proof.
  intros Hwf.
  pose proof (wf_filter_spec feature_filter module_fqn_filter _ Hwf) as Hwfd.
  set (fd := filter_spec _ _ _) in *.
  destruct (scan_features_spec fd Hwfd) as (st & Hst & Htf & Hcf & _).
  destruct (feature_names_outer false fd (keys fd) ∅)
    as (names & Hn & Hnames); [done|].
  exists fd, st, names.
  split_and!; [by apply get_filtered_data_spec|done|done| |].
  - apply set_eq. intros f. rewrite elem_of_union, Htf, Hcf, Hnames. split.
    + intros [(m & v & Hh & _)|(m & v & Hh & _)]; right;
        apply holds_getitem in Hh as (fm & Hm & Hf); try done;
        exists m, fm; repeat split; try done; by eapply getitem_Ok_keys.
    + intros [[]%not_elem_of_empty|(m & fm & _ & Hm & [v Hf]%getitem_keys & _)].
      assert (holds fd m f v) as Hh by (apply holds_getitem; eauto).
      destruct (py_iterable v) eqn:Hv; [right|left]; by exists m, v.
  - intros f. rewrite elem_of_intersection, Htf, Hcf. naive_solver.
Qed.

Lemma X5_witness :
  ∃ fd st names,
    _get_filtered_data mixed_kinds "" "" = Ok fd
    ∧ scan_features fd = Ok st
    ∧ get_all_unique_feature_names {| generated_reports := fd |} false
      = Ok names
    ∧ tensor_features st ∪ channel_features st = names
    ∧ ∀ f, f ∈ tensor_features st ∩ channel_features st ↔
           ∃ m v m' v', holds fd m f v ∧ py_iterable v = false
                        ∧ holds fd m' f v' ∧ py_iterable v' = true.
Proof.
  apply (X5_classes_cover_feature_names mixed_kinds "" "").
  apply (bool_decide_unpack _). vm_compute. exact I.
Defined.

(** ** The tables, cell by cell *)

Lemma getitem_not_in {V} (d : dict V) k :
  k ∉ keys d → getitem d k = Raise KeyError.
Proof.
  unfold keys. induction d as [|[k' v'] d IH]; cbn; [done|].
  rewrite not_elem_of_cons. intros [? ?]. rewrite decide_False by done. auto.
Qed.

Lemma getitem_Raise {V} (d : dict V) k e :
  getitem d k = Raise e → e = KeyError ∧ k ∉ keys d.
Proof.
  intros H. destruct (decide (k ∈ keys d)) as [[v Hv]%getitem_keys|Hk].
  - congruence.
  - rewrite getitem_not_in in H by done. by injection H as <-.
Qed.






Lemma length_sorted (s : gset string) : length (sorted s) = size s.
Proof.
  unfold sorted. by rewrite (Permutation_length (merge_sort_Permutation _ _)).
Qed.








(** X8. Both tables are rectangular: every row of the tensor table, header
    included, has 2 + (number of tensor features) cells and every row of the
    channel table has 3 + (number of channel features) cells. *)
Theorem X8_tables_rectangular (tabulate : Table → string)
    (self : ModelReportVisualizer) (feature_filter module_fqn_filter : string)
    bundle table_str :
  generate_table_view tabulate self feature_filter module_fqn_filter
  = Ok (bundle, table_str) →
  ∃ fd st tt ct,
    _get_filtered_data self feature_filter module_fqn_filter = Ok fd
    ∧ scan_features fd = Ok st
    ∧ bundle = [(TABLE_TENSOR_KEY, tt); (TABLE_CHANNEL_KEY, ct)]
    ∧ Forall (λ row, length row = 2 + size (tensor_features st)) tt
    ∧ Forall (λ row, length row = 3 + size (channel_features st)) ct.
Proof.
  intros (fd & st & tt & ct & cnt & Hfd & Hst & Htt & Hct & -> & _)
    %generate_table_view_Ok.
  exists fd, st, tt, ct. split_and!; [done..| |].
  - apply build_tensor_table_Ok in Htt as (rows & -> & Hrows).
    constructor.
    + cbn. by rewrite length_fmap, length_sorted.
    + eapply Forall2_Forall_r; [exact Hrows|]. apply Forall_forall.
      intros [i m] _ row (cells & -> & Hlen)%tensor_table_row_shape.
      cbn. by rewrite Hlen, length_sorted.
  - apply build_channel_table_Ok in Hct as (rows & -> & _ & Hrows).
    constructor.
    + cbn. by rewrite length_fmap, length_sorted.
    + eapply Forall2_Forall_r; [exact Hrows|]. apply Forall_forall.
      intros [k [m c]] _ row (cells & -> & Hlen)%new_channel_row_shape.
      cbn. by rewrite Hlen, length_sorted.
Qed.

Lemma X8_witness :
  ∃ (bundle : dict Table) (fd : Report) st (tt ct : Table),
    _get_filtered_data two_lengths "" "" = Ok fd
    ∧ scan_features fd = Ok st
    ∧ bundle = [(TABLE_TENSOR_KEY, tt); (TABLE_CHANNEL_KEY, ct)]
    ∧ Forall (λ row, length row = 2 + size (tensor_features st)) tt
    ∧ Forall (λ row, length row = 3 + size (channel_features st)) ct.
Proof.
  eexists. eapply (X8_tables_rectangular (λ _, "") two_lengths "" "").
  vm_compute. reflexivity.
Defined.

(** ** The formatted string *)

Lemma sorted_empty_length (s : gset string) :
  (0 <? length (sorted s)) = bool_decide (s ≠ ∅).
Proof.
  destruct (decide (s = ∅)) as [->|Hne].
  - by rewrite (proj2 (sorted_nil ∅)).
  - rewrite bool_decide_eq_true_2 by done. apply Nat.ltb_lt.
    destruct (sorted s) eqn:Hs; [by apply sorted_nil in Hs|cbn; lia].
Qed.

(** X9. The formatted string: the "no data points" message exactly when
    there is no feature of either class; otherwise the tensor section (its
    heading, then the tabulated tensor table) when there are tensor features,
    followed by the channel section when there are channel features. *)
Theorem X9_formatted_string (tabulate : Table → string)
    (self : ModelReportVisualizer) (feature_filter module_fqn_filter : string)
    bundle table_str :
  generate_table_view tabulate self feature_filter module_fqn_filter
  = Ok (bundle, table_str) →
  ∃ fd st tt ct,
    _get_filtered_data self feature_filter module_fqn_filter = Ok fd
    ∧ scan_features fd = Ok st
    ∧ bundle = [(TABLE_TENSOR_KEY, tt); (TABLE_CHANNEL_KEY, ct)]
    ∧ table_str =
        (if decide (tensor_features st = ∅) then
           if decide (channel_features st = ∅) then NO_DATA
           else CHANNEL_HEADING +:+ tabulate ct
         else
           if decide (channel_features st = ∅) then
             TENSOR_HEADING +:+ tabulate tt
           else (TENSOR_HEADING +:+ tabulate tt)
                  +:+ CHANNEL_HEADING +:+ tabulate ct)
    ∧ (table_str = NO_DATA ↔
       tensor_features st = ∅ ∧ channel_features st = ∅).
Proof.
  intros (fd & st & tt & ct & cnt & Hfd & Hst & Htt & Hct & -> & ->)
    %generate_table_view_Ok.
  exists fd, st, tt, ct. split_and!; [done..| |];
    unfold format_tables; rewrite !sorted_empty_length;
    destruct (decide (tensor_features st = ∅)) as [Ht|Ht],
             (decide (channel_features st = ∅)) as [Hc|Hc];
    rewrite ?(bool_decide_eq_false_2 _ (λ H, H Ht)),
            ?(bool_decide_eq_false_2 _ (λ H, H Hc)),
            ?(bool_decide_eq_true_2 _ Ht), ?(bool_decide_eq_true_2 _ Hc);
    try done.
  all: split; [|by intros [? ?]]; vm_compute; intros [=].
Qed.

Lemma X9_witness :
  ∃ (bundle : dict Table) fd st tt ct,
    _get_filtered_data two_lengths "" "" = Ok fd
    ∧ scan_features fd = Ok st
    ∧ bundle = [(TABLE_TENSOR_KEY, tt); (TABLE_CHANNEL_KEY, ct)]
    ∧ CHANNEL_HEADING =
        (if decide (tensor_features st = ∅) then
           if decide (channel_features st = ∅) then NO_DATA
           else CHANNEL_HEADING +:+ (λ _ : Table, "") ct
         else
           if decide (channel_features st = ∅) then
             TENSOR_HEADING +:+ (λ _ : Table, "") tt
           else (TENSOR_HEADING +:+ (λ _ : Table, "") tt)
                  +:+ CHANNEL_HEADING +:+ (λ _ : Table, "") ct)
    ∧ (CHANNEL_HEADING = NO_DATA ↔
       tensor_features st = ∅ ∧ channel_features st = ∅).
Proof.
  eexists. eapply (X9_formatted_string (λ _, "") two_lengths "" "").
  vm_compute. reflexivity.
Defined.

(** X11. A report with scalar values only always renders: when no value of
    the report is iterable, [generate_table_view] returns for any filters,
    and the channel table is its header row alone. *)
Theorem X11_scalar_reports_render (tabulate : Table → string)
    (self : ModelReportVisualizer) (feature_filter module_fqn_filter : string) :
  wf_report (generated_reports self) →
  Forall (λ kv : string * FeatureMap,
            Forall (λ fv : string * PyVal, py_iterable fv.2 = false) kv.2)
    (generated_reports self) →
  ∃ tt table_str,
    generate_table_view tabulate self feature_filter module_fqn_filter
    = Ok ([(TABLE_TENSOR_KEY, tt);
           (TABLE_CHANNEL_KEY,
            [[PyStr "idx"; PyStr "layer_fqn"; PyStr "channel"]])],
          table_str).
Proof.
  intros Hwf Hscalar.
  pose proof (get_filtered_data_spec self feature_filter module_fqn_filter Hwf)
    as Hfd.
  pose proof (wf_filter_spec feature_filter module_fqn_filter _ Hwf) as Hwfd.
  assert (∀ m f v,
            holds (filter_spec feature_filter module_fqn_filter
                     (generated_reports self)) m f v →
            py_iterable v = false) as Hno.
  { intros m f v [(fm & Hm & Hf) _]%holds_filter_spec; [|apply Hwf].
    rewrite Forall_forall in Hscalar. specialize (Hscalar _ Hm).
    rewrite Forall_forall in Hscalar. apply (Hscalar _ Hf). }
  set (fd := filter_spec _ _ _) in *.
  destruct (scan_features_spec fd Hwfd) as (st & Hst & _ & Hcf & _).
  assert (channel_features st = ∅) as Hempty.
  { apply set_eq. intros f. rewrite Hcf. split; [|by intros []%not_elem_of_empty].
    intros (m & v & Hh & Hv). by rewrite (Hno m f v Hh) in Hv. }
  pose proof (scan_no_channel_features fd st Hst Hempty) as Hnc.
  destruct (build_tensor_table_total fd (sorted (tensor_features st)))
    as [tt Htt].
  { intros m f v Hh _. apply extract_val_not_iterable. by eapply Hno. }
  exists tt. eexists. apply generate_table_view_Ok.
  exists fd, st, tt, [[PyStr "idx"; PyStr "layer_fqn"; PyStr "channel"]], 1.
  split_and!; [done..| |done|done].
  apply build_channel_table_Ok. exists [].
  rewrite Hempty, Hnc, (proj2 (sorted_nil ∅)), Nat.mul_0_r by done.
  split_and!; [done..|constructor].
Qed.

Lemma X11_witness :
  ∃ tt table_str,
    generate_table_view (λ _, "") scenario6 "max" "layer"
    = Ok ([(TABLE_TENSOR_KEY, tt);
           (TABLE_CHANNEL_KEY,
            [[PyStr "idx"; PyStr "layer_fqn"; PyStr "channel"]])],
          table_str).
Proof.
  apply (X11_scalar_reports_render (λ _, "") scenario6 "max" "layer").
  - apply (bool_decide_unpack _). vm_compute. exact I.
  - apply (bool_decide_unpack _). vm_compute. exact I.
Defined.

(** ** Module names *)

Lemma keys_filter_spec_empty feature_filter (r : Report) :
  keys (filter_spec feature_filter "" r) = keys r.
Proof.
  induction r as [|[m fm] r IH]; [done|].
  rewrite filter_spec_cons, matches_empty. cbn. f_equal. apply IH.
Qed.

(** X12. [get_all_unique_module_fqns] returns exactly the names under which
    the report has an entry, as many as the report has entries.  The modules
    of the filtered data are always among them, and are all of them when the
    module filter is empty. *)
Theorem X12_module_fqns (self : ModelReportVisualizer)
    (feature_filter module_fqn_filter : string) :
  wf_report (generated_reports self) →
  (∀ m, m ∈ get_all_unique_module_fqns self ↔
        is_ok (getitem (generated_reports self) m) = true)
  ∧ size (get_all_unique_module_fqns self) = length (generated_reports self)
  ∧ ∃ fd,
      _get_filtered_data self feature_filter module_fqn_filter = Ok fd
      ∧ list_to_set (keys fd) ⊆ get_all_unique_module_fqns self
      ∧ (module_fqn_filter = "" →
         list_to_set (keys fd) = get_all_unique_module_fqns self).
Proof.
  intros Hwf. unfold get_all_unique_module_fqns. split_and!.
  - intros m. rewrite elem_of_list_to_set. split.
    + by intros [fm ->]%getitem_keys.
    + destruct (getitem _ m) as [fm|] eqn:Hm; [|done].
      intros _. by eapply getitem_Ok_keys.
  - rewrite size_list_to_set by apply Hwf. apply length_keys.
  - eexists. split; [by apply get_filtered_data_spec|]. split.
    + intros m. rewrite !elem_of_list_to_set, keys_filter_spec.
      unfold keys. rewrite !list_elem_of_fmap.
      intros (kv & -> & [_ Hin]%list_elem_of_filter). by exists kv.
    + intros ->. by rewrite keys_filter_spec_empty.
Qed.

Lemma X12_witness :
  (∀ m, m ∈ get_all_unique_module_fqns nested_names ↔
        is_ok (getitem (generated_reports nested_names) m) = true)
  ∧ size (get_all_unique_module_fqns nested_names)
    = length (generated_reports nested_names)
  ∧ ∃ fd,
      _get_filtered_data nested_names "max" "" = Ok fd
      ∧ list_to_set (keys fd) ⊆ get_all_unique_module_fqns nested_names
      ∧ ("" = "" →
         list_to_set (keys fd) = get_all_unique_module_fqns nested_names).
Proof.
  apply (X12_module_fqns nested_names "max" "").
  apply (bool_decide_unpack _). vm_compute. exact I.
Defined.

(** ** The store, continued *)

Lemma filtered_refs_fresh n (acc : Report) :
  Forall (λ ml : string * Store.loc, n < ml.2) (Store.filtered_refs n acc).
Proof.
  apply Forall_forall. intros [m l] Hin%elem_of_zip_r.
  apply elem_of_seq in Hin. cbn. lia.
Qed.

(** X13. The filter shares no dictionary with the report: run over a heap,
    [_get_filtered_data] returns a reference to an object that did not exist
    before the call, every feature dictionary that object refers to is new as
    well, and read through these references the result is the data the
    functional reading computes. *)
Theorem X13_filter_result_is_fresh (self : Store.ModelReportVisualizer)
    (feature_filter module_fqn_filter : string)
    (h : Store.heap) (r : Report) :
  Store.load (Store.generated_reports self) h = (Ok r, h) →
  wf_report r →
  ∃ l h' d fd,
    Store._get_filtered_data self feature_filter module_fqn_filter h
    = (Ok l, h')
    ∧ h !! l = None
    ∧ l ≠ Store.generated_reports self
    ∧ h' !! l = Some (Store.OReport d)
    ∧ Forall (λ ml : string * Store.loc, h !! ml.2 = None) d
    ∧ _get_filtered_data {| generated_reports := r |}
        feature_filter module_fqn_filter = Ok fd
    ∧ Store.load l h' = (Ok fd, h').
Proof.
  intros Hload Hwf.
  exists (length h), (Store.filtered_heap h
                        (filter_spec feature_filter module_fqn_filter r)).
  eexists _, _. split_and!.
  - by apply StoreFacts.get_filtered_data_run.
  - by apply lookup_ge_None_2.
  - apply StoreFacts.load_Ok in Hload as [_ (d & Hd & _)].
    apply lookup_lt_Some in Hd. lia.
  - apply StoreFacts.filtered_heap_lookup_fd.
  - eapply Forall_impl; [apply filtered_refs_fresh|].
    intros [m l] Hl. cbn in *. apply lookup_ge_None_2. lia.
  - by apply get_filtered_data_spec.
  - apply StoreFacts.load_filtered_heap.
Qed.

Lemma X13_witness :
  ∃ l h' d fd,
    Store._get_filtered_data Store.scenario6_self "max" "layer2"
      Store.scenario6_heap = (Ok l, h')
    ∧ Store.scenario6_heap !! l = None
    ∧ l ≠ Store.generated_reports Store.scenario6_self
    ∧ h' !! l = Some (Store.OReport d)
    ∧ Forall (λ ml : string * Store.loc, Store.scenario6_heap !! ml.2 = None) d
    ∧ _get_filtered_data scenario6 "max" "layer2" = Ok fd
    ∧ Store.load l h' = (Ok fd, h').
Proof.
  apply (X13_filter_result_is_fresh Store.scenario6_self "max" "layer2"
           Store.scenario6_heap (generated_reports scenario6)).
  - vm_compute. reflexivity.
  - apply (bool_decide_unpack _). vm_compute. exact I.
Defined.

(** ** When the table view returns *)



